(** * pgmatview: the cachemgr background worker (src/lib/pgmatview_main.c)

    A shallow embedding of the three entry points of the file:

    - [cachemgr_launch]  the SQL-callable dynamic launch (lines 203-257);
    - [_PG_init]         module initialisation: two settings and the static
                         registration loop (lines 143-201);
    - [cachemgr_main]    the worker's main loop (lines 80-140), as a
                         statement-level transition system driven by the
                         events of its environment (signals, wake-ups of the
                         latch wait, edits of the configuration file).

    PostgreSQL itself is not part of the source tree.  Its functions appear
    here either as recorded calls ([Call]) or, where the behaviour of the
    worker depends on what they do (the latch, the range check of an integer
    setting), as definitions whose comment says so. *)

From Stdlib Require Import ZArith List String Bool Lia DecimalString.
Import ListNotations.
Local Open Scope string_scope.
Local Open Scope Z_scope.

Set Implicit Arguments.

(** ** Shared declarations *)

(** [BgWorkerStartTime] and the restart policy, as far as the file uses them. *)
Inductive BgWorkerStartTime :=
| BgWorkerStart_PostmasterStart
| BgWorkerStart_ConsistentState
| BgWorkerStart_RecoveryFinished.

Inductive BgwRestart := BGW_NEVER_RESTART | BGW_RESTART_AFTER (seconds : Z).

(** Flag bits of postmaster/bgworker.h. *)
Definition BGWORKER_SHMEM_ACCESS : Z := 1.
Definition BGWORKER_BACKEND_DATABASE_CONNECTION : Z := 2.
Definition BGW_MAXLEN : nat := 64.

Record BackgroundWorker := mkWorker {
  bgw_name : string;
  bgw_flags : Z;
  bgw_start_time : BgWorkerStartTime;
  bgw_restart_time : BgwRestart;
  bgw_library_name : string;
  bgw_function_name : string;
  bgw_main_arg : Z;
  bgw_notify_pid : Z
}.

(** [snprintf(buf, size, "cachemgr_%d", i)]: the text is cut after [size - 1]
    characters. *)
Definition format_d (i : Z) : string := NilZero.string_of_int (Z.to_int i).

Definition snprintf_cachemgr (size : nat) (i : Z) : string :=
  substring 0 (size - 1) (String.append "cachemgr_" (format_d i)).

(** ** Dynamic launch: [cachemgr_launch] *)

Module Launch.

Inductive BgwHandleStatus :=
| BGWH_STARTED
| BGWH_NOT_YET_STARTED
| BGWH_STOPPED
| BGWH_POSTMASTER_DIED.

Definition BgwHandleStatus_eqb (a b : BgwHandleStatus) : bool :=
  match a, b with
  | BGWH_STARTED, BGWH_STARTED
  | BGWH_NOT_YET_STARTED, BGWH_NOT_YET_STARTED
  | BGWH_STOPPED, BGWH_STOPPED
  | BGWH_POSTMASTER_DIED, BGWH_POSTMASTER_DIED => true
  | _, _ => false
  end.

(** SQLSTATE class 53, "insufficient resources" (utils/errcodes.h). It is the
    only error code the file names. *)
Definition ERRCODE_INSUFFICIENT_RESOURCES : string := "53000".

(** What [ereport(ERROR, (errcode(..), errmsg(..), errhint(..)))] raises. *)
Record ErrorData := mkError {
  sqlerrcode : string;
  message : string;
  hint : string
}.

(** The ways a call of [cachemgr_launch] can end: the SQL null, an int4
    result, an error raised through [ereport(ERROR, ...)], or a failed
    [Assert] in a build with assertions. *)
Inductive LaunchResult :=
| PG_RETURN_NULL
| PG_RETURN_INT32 (v : Z)
| ereport_ERROR (e : ErrorData)
| AssertFailed.

(** The host functions the launch calls. [WaitForBackgroundWorkerStartup]
    yields the status and the pid it stored through [&pid]. *)
Record Host (Handle : Type) := mkHost {
  MyProcPid : Z;
  assert_enabled : bool;
  RegisterDynamicBackgroundWorker : BackgroundWorker -> option Handle;
  WaitForBackgroundWorkerStartup : Handle -> BgwHandleStatus * Z
}.

(** Lines 211-220. Line 212 writes [BGW_SHMEM_ACCESS] for the flag that
    line 186 calls [BGWORKER_SHMEM_ACCESS]. *)
Definition launch_worker (my_pid : Z) (i : Z) : BackgroundWorker :=
  {| bgw_name := snprintf_cachemgr BGW_MAXLEN i;
     bgw_flags := Z.lor BGWORKER_SHMEM_ACCESS BGWORKER_BACKEND_DATABASE_CONNECTION;
     bgw_start_time := BgWorkerStart_RecoveryFinished;
     bgw_restart_time := BGW_NEVER_RESTART;
     bgw_library_name := "cachemgr";
     bgw_function_name := "cachemgr_main";
     bgw_main_arg := i;
     bgw_notify_pid := my_pid |}.

Definition err_stopped : ErrorData :=
  {| sqlerrcode := ERRCODE_INSUFFICIENT_RESOURCES;
     message := "Could not start background process";
     hint := "Check server logs." |}.

(** Lines 244-251; the comma after [ERROR] is missing there, the report is
    read as the one of lines 231-238 is written. *)
Definition err_postmaster_died : ErrorData :=
  {| sqlerrcode := ERRCODE_INSUFFICIENT_RESOURCES;
     message := "Cannot start background process without postmaster";
     hint := "Kill all remaining database processes and restart the database" |}.

(** Lines 203-257. *)
Definition cachemgr_launch {Handle : Type} (h : Host Handle) (i : Z)
  : LaunchResult :=
  let worker := launch_worker (MyProcPid h) i in
  match RegisterDynamicBackgroundWorker h worker with
  | None => PG_RETURN_NULL
  | Some handle =>
      let '(status, pid) := WaitForBackgroundWorkerStartup h handle in
      if BgwHandleStatus_eqb status BGWH_STOPPED then
        ereport_ERROR err_stopped
      else if BgwHandleStatus_eqb status BGWH_POSTMASTER_DIED then
        ereport_ERROR err_postmaster_died
      else if assert_enabled h && negb (BgwHandleStatus_eqb status BGWH_STARTED) then
        AssertFailed
      else
        PG_RETURN_INT32 pid
  end.

(** A host whose registration succeeds and whose wait reports [st] and [pid]. *)
Definition reporting_host (st : BgwHandleStatus) (pid : Z) : Host unit :=
  {| MyProcPid := 4242;
     assert_enabled := true;
     RegisterDynamicBackgroundWorker := fun _ => Some tt;
     WaitForBackgroundWorkerStartup := fun _ => (st, pid) |}.

(** A host that refuses every dynamic registration. *)
Definition refusing_host : Host unit :=
  {| MyProcPid := 4242;
     assert_enabled := true;
     RegisterDynamicBackgroundWorker := fun _ => None;
     WaitForBackgroundWorkerStartup := fun _ => (BGWH_STARTED, 0) |}.

(** The error kind of a failed launch is its SQLSTATE. *)
Definition error_kind (r : LaunchResult) : option string :=
  match r with
  | ereport_ERROR e => Some (sqlerrcode e)
  | _ => None
  end.

(** C1 as the specification words it: a launch whose wait reports the death
    of the postmaster fails with an error kind other than the one of
    insufficient resources. *)
Definition postmaster_death_has_own_kind : Prop :=
  forall (Handle : Type) (h : Host Handle) (i : Z) (handle : Handle) (pid : Z),
    RegisterDynamicBackgroundWorker h (launch_worker (MyProcPid h) i) = Some handle ->
    WaitForBackgroundWorkerStartup h handle = (BGWH_POSTMASTER_DIED, pid) ->
    exists k, error_kind (cachemgr_launch h i) = Some k
              /\ k <> ERRCODE_INSUFFICIENT_RESOURCES.

End Launch.

(** ** Module initialisation: [_PG_init] *)

Module Init.

Definition INT_MAX : Z := 2147483647.

(** C conversions on 32-bit integers: [int] to [unsigned int] and back. *)
Definition to_unsigned (x : Z) : Z := x mod 2 ^ 32.
Definition to_int32 (x : Z) : Z := (x + 2 ^ 31) mod 2 ^ 32 - 2 ^ 31.

Inductive GucContext := PGC_POSTMASTER | PGC_SIGHUP.

(** The arguments of a [DefineCustomIntVariable] call that matter here. *)
Record config_int := mkGuc {
  guc_name : string;
  guc_desc : string;
  guc_boot : Z;
  guc_min : Z;
  guc_max : Z;
  guc_context : GucContext
}.

(** Lines 148-161. *)
Definition sleep_time_guc : config_int :=
  {| guc_name := "cachemgr.sleep_time";
     guc_desc := "Duration between invalidation peeks (ms)";
     guc_boot := 10;
     guc_min := 1;
     guc_max := INT_MAX;
     guc_context := PGC_SIGHUP |}.

(** Lines 168-181. *)
Definition worker_count_guc : config_int :=
  {| guc_name := "cachemgr.worker_count";
     guc_desc := "Number of workers to start.";
     guc_boot := 1;
     guc_min := 1;
     guc_max := 50;
     guc_context := PGC_POSTMASTER |}.

(** The configuration file: integer settings by name, a later line
    overriding an earlier one. *)
Definition ConfigFile := list (string * Z).

Fixpoint lookup (name : string) (f : ConfigFile) : option Z :=
  match f with
  | [] => None
  | (n, v) :: rest =>
      match lookup name rest with
      | Some v' => Some v'
      | None => if String.eqb n name then Some v else None
      end
  end.

Definition in_range (g : config_int) (v : Z) : bool :=
  (guc_min g <=? v) && (v <=? guc_max g).

(** The static variables of lines 36-37. *)
Record Globals := mkGlobals {
  cachemgr_sleep_time : Z;
  cachemgr_worker_count : Z
}.

Definition static_globals : Globals :=
  {| cachemgr_sleep_time := 10; cachemgr_worker_count := 1 |}.

(** What [_PG_init] asks of the host, in order. [GucRejected] is the host
    refusing the value the configuration holds for a setting. *)
Inductive InitEvent :=
| Defined (g : config_int)
| GucRejected (name : string) (v : Z)
| RegisterBackgroundWorker (w : BackgroundWorker).

(** Modelled from the spec: [DefineCustomIntVariable] is PostgreSQL's and
    absent from the source tree. The setting starts at its boot value; the
    value the configuration holds for it is taken when it lies in
    [min, max] and is rejected otherwise, the previous value staying in
    place ("reject configuration values outside range at load time",
    "previous value retained"). The result is the value the variable holds
    afterwards, with the events of the call. *)
Definition DefineCustomIntVariable (file : ConfigFile) (g : config_int)
  : Z * list InitEvent :=
  match lookup (guc_name g) file with
  | None => (guc_boot g, [Defined g])
  | Some v =>
      if in_range g v then (v, [Defined g])
      else (guc_boot g, [Defined g; GucRejected (guc_name g) v])
  end.

(** Modelled from the spec: [ProcessConfigFile(PGC_SIGHUP)] is PostgreSQL's.
    A reload-on-signal setting takes the value of the file when it is in
    range, keeps its value when the file's is not, and goes back to its boot
    value when the file no longer sets it; a restart-required setting is
    left alone. *)
Definition reload_int (file : ConfigFile) (g : config_int) (current : Z) : Z :=
  match guc_context g with
  | PGC_POSTMASTER => current
  | PGC_SIGHUP =>
      match lookup (guc_name g) file with
      | None => guc_boot g
      | Some v => if in_range g v then v else current
      end
  end.

(** Lines 183-192: the fields that are the same for every static worker. *)
Definition worker_template : BackgroundWorker :=
  {| bgw_name := "";
     bgw_flags := Z.lor BGWORKER_SHMEM_ACCESS BGWORKER_BACKEND_DATABASE_CONNECTION;
     bgw_start_time := BgWorkerStart_RecoveryFinished;
     bgw_restart_time := BGW_NEVER_RESTART;
     bgw_library_name := "cachemgr";
     bgw_function_name := "cachemgr_main";
     bgw_main_arg := 0;
     bgw_notify_pid := 0 |}.

(** Lines 196-197: the two fields the loop body overwrites. [i] is an
    [unsigned int]; [%d] and [Int32GetDatum] read it as an [int]. *)
Definition set_index (w : BackgroundWorker) (i : Z) : BackgroundWorker :=
  {| bgw_name := snprintf_cachemgr BGW_MAXLEN (to_int32 i);
     bgw_flags := bgw_flags w;
     bgw_start_time := bgw_start_time w;
     bgw_restart_time := bgw_restart_time w;
     bgw_library_name := bgw_library_name w;
     bgw_function_name := bgw_function_name w;
     bgw_main_arg := to_int32 i;
     bgw_notify_pid := bgw_notify_pid w |}.

(** Lines 194-200: [for( i = 1; i <= cachemgr_worker_count; i++ )]. The
    comparison is made on [unsigned int], [i++] wraps at 2^32. [None] when
    the fuel does not cover the iterations. *)
Fixpoint register_loop (fuel : nat) (i : Z) (count : Z) (worker : BackgroundWorker)
  : option (list InitEvent) :=
  match fuel with
  | O => None
  | S fuel' =>
      if i <=? to_unsigned count then
        let worker' := set_index worker i in
        match register_loop fuel' ((i + 1) mod 2 ^ 32) count worker' with
        | Some evs => Some (RegisterBackgroundWorker worker' :: evs)
        | None => None
        end
      else Some []
  end.

(** Lines 143-201. [preload] is [process_shared_preload_libraries_in_progress]. *)
Definition _PG_init (fuel : nat) (preload : bool) (file : ConfigFile) (g : Globals)
  : option (Globals * list InitEvent) :=
  let '(sleep, ev1) := DefineCustomIntVariable file sleep_time_guc in
  let g1 := {| cachemgr_sleep_time := sleep;
               cachemgr_worker_count := cachemgr_worker_count g |} in
  if negb preload then Some (g1, ev1)
  else
    let '(count, ev2) := DefineCustomIntVariable file worker_count_guc in
    let g2 := {| cachemgr_sleep_time := sleep; cachemgr_worker_count := count |} in
    match register_loop fuel 1 count worker_template with
    | Some ev3 => Some (g2, (ev1 ++ ev2 ++ ev3)%list)
    | None => None
    end.

(** The workers registered by a run of [_PG_init], in order. *)
Fixpoint registered (evs : list InitEvent) : list BackgroundWorker :=
  match evs with
  | [] => []
  | RegisterBackgroundWorker w :: rest => w :: registered rest
  | _ :: rest => registered rest
  end.

(** The static worker of index [i]. *)
Definition static_worker (i : Z) : BackgroundWorker :=
  set_index worker_template i.

(** [i; i+1; ...], [n] of them. *)
Fixpoint indices (i : Z) (n : nat) : list Z :=
  match n with
  | O => []
  | S n' => i :: indices (i + 1) n'
  end.

End Init.

(** ** The worker: [cachemgr_main] *)

Module Worker.

Inductive Signal := SIGHUP | SIGTERM.

(** Modelled from the spec: the reason bitmask of the latch wait
    ("explicit-set | timeout | parent-death"); storage/latch.h is not part of
    the source tree, the values are the ones PostgreSQL gives the three
    names. *)
Definition WL_LATCH_SET : Z := 1.
Definition WL_TIMEOUT : Z := 8.
Definition WL_POSTMASTER_DEATH : Z := 16.

(** [long] is taken as a 64-bit integer. *)
Definition to_long (x : Z) : Z := (x + 2 ^ 63) mod 2 ^ 64 - 2 ^ 63.
Arguments to_long : simpl never.

Inductive BackendState := STATE_IDLE | STATE_RUNNING.

(** The calls the worker makes, as a reader of its log of calls sees them.
    [DO_SOME_STUFF] stands for the unit of work that lines 71 and 130 leave
    open. *)
Inductive Call :=
| pqsignal (sg : Signal)
| BackgroundWorkerUnblockSignals
| BackgroundWorkerInitializeConnection (dbname : string)
| SetCurrentStatementStartTimestamp
| StartTransactionCommand
| SPI_connect
| PushActiveSnapshot
| pgstat_report_activity (st : BackendState) (desc : option string)
| DO_SOME_STUFF
| SPI_finish
| PopActiveSnapshot
| CommitTransactionCommand
| pgstat_report_stat (force : bool)
| WaitLatch (wakeEvents : Z) (timeout : Z)
| ResetLatch
| CHECK_FOR_INTERRUPTS
| ProcessConfigFile
| proc_exit (code : Z).

(** Program points, named by the line of the statement about to run.
    Lines 65-77 are the body of [initialize_cachemgr], called at line 95;
    line 82 reads the index of the worker, which nothing uses afterwards.
    [Exited] is the process after [proc_exit]; [Raised] is the process after
    an error has left [cachemgr_main], which has no handler of its own. *)
Inductive pc :=
| L87 | L88 | L90 | L92
| L65 | L66 | L67 | L68 | L69 | L71 | L74 | L75 | L76 | L77
| L97 | L101 | L108 | L110 | L113 | L116 | L118 | L120 | L121
| L124 | L125 | L126 | L127 | L128 | L130 | L132 | L133 | L134 | L135 | L136
| L139
| Exited (code : Z)
| Raised.

(** The kinds of statement of [cachemgr_main], each with where control goes
    next. [SCall] is a host call that neither reads nor writes the worker's
    flags, latch or settings. *)
Inductive Stmt :=
| SCall (c : Call) (next : pc)
| SUnblock (next : pc)
| SWork (next : pc)
| SWhile (body exit : pc)
| SWait (next : pc)
| SReset (next : pc)
| SIfDeath (yes no : pc)
| SIfHup (yes no : pc)
| SClearHup (next : pc)
| SReload (next : pc)
| SExit (code : Z)
| SStop.

(** The text of [cachemgr_main] (and of [initialize_cachemgr]), statement by
    statement. Line 68 spells [PushActiveSnapshop]. *)
Definition stmt_at (p : pc) : Stmt :=
  match p with
  | L87 => SCall (pqsignal SIGHUP) L88
  | L88 => SCall (pqsignal SIGTERM) L90
  | L90 => SUnblock L92
  | L92 => SCall (BackgroundWorkerInitializeConnection "postgres") L65
  | L65 => SCall SetCurrentStatementStartTimestamp L66
  | L66 => SCall StartTransactionCommand L67
  | L67 => SCall SPI_connect L68
  | L68 => SCall PushActiveSnapshot L69
  | L69 => SCall (pgstat_report_activity STATE_RUNNING
                    (Some "Initializing Cache Manager")) L71
  | L71 => SWork L74
  | L74 => SCall SPI_finish L75
  | L75 => SCall PopActiveSnapshot L76
  | L76 => SCall CommitTransactionCommand L77
  | L77 => SCall (pgstat_report_activity STATE_IDLE None) L97
  | L97 => SWhile L101 L139
  | L101 => SWait L108
  | L108 => SReset L110
  | L110 => SIfDeath L113 L116
  | L113 => SExit 1
  | L116 => SCall CHECK_FOR_INTERRUPTS L118
  | L118 => SIfHup L120 L124
  | L120 => SClearHup L121
  | L121 => SReload L124
  | L124 => SCall SetCurrentStatementStartTimestamp L125
  | L125 => SCall StartTransactionCommand L126
  | L126 => SCall SPI_connect L127
  | L127 => SCall PushActiveSnapshot L128
  | L128 => SCall (pgstat_report_activity STATE_RUNNING (Some "Foobar")) L130
  | L130 => SWork L132
  | L132 => SCall SPI_finish L133
  | L133 => SCall PopActiveSnapshot L134
  | L134 => SCall CommitTransactionCommand L135
  | L135 => SCall (pgstat_report_stat false) L136
  | L136 => SCall (pgstat_report_activity STATE_IDLE None) L97
  | L139 => SExit 1
  | Exited _ => SStop
  | Raised => SStop
  end.

(** The worker process: where it is, its two flags (lines 33-34), its latch,
    the signals held back while signals are blocked, the last result of
    [WaitLatch], the setting of line 36, the configuration file as it is on
    disk, and the calls made so far, in the order they were made. *)
Record state := mkState {
  at_pc : pc;
  got_sighup : bool;
  got_sigterm : bool;
  latch_is_set : bool;
  signals_blocked : bool;
  pending_hup : bool;
  pending_term : bool;
  rc : Z;
  cachemgr_sleep_time : Z;
  config_file : Init.ConfigFile;
  calls : list Call
}.

Definition goto (p : pc) (s : state) : state :=
  mkState p (got_sighup s) (got_sigterm s) (latch_is_set s) (signals_blocked s)
    (pending_hup s) (pending_term s) (rc s) (cachemgr_sleep_time s)
    (config_file s) (calls s).

Definition emit (c : Call) (s : state) : state :=
  mkState (at_pc s) (got_sighup s) (got_sigterm s) (latch_is_set s)
    (signals_blocked s) (pending_hup s) (pending_term s) (rc s)
    (cachemgr_sleep_time s) (config_file s) (calls s ++ [c])%list.

(** Lines 42-50: [got_sigterm = true; SetLatch( MyLatch );]. *)
Definition cachemgr_sigterm (s : state) : state :=
  mkState (at_pc s) (got_sighup s) true true (signals_blocked s)
    (pending_hup s) (pending_term s) (rc s) (cachemgr_sleep_time s)
    (config_file s) (calls s).

(** Lines 53-61: [got_sighup = true; SetLatch( MyLatch );]. *)
Definition cachemgr_sighup (s : state) : state :=
  mkState (at_pc s) true (got_sigterm s) true (signals_blocked s)
    (pending_hup s) (pending_term s) (rc s) (cachemgr_sleep_time s)
    (config_file s) (calls s).

Definition handler (sg : Signal) : state -> state :=
  match sg with
  | SIGHUP => cachemgr_sighup
  | SIGTERM => cachemgr_sigterm
  end.

(** A signal that arrives while signals are blocked is held back. *)
Definition hold (sg : Signal) (s : state) : state :=
  mkState (at_pc s) (got_sighup s) (got_sigterm s) (latch_is_set s)
    (signals_blocked s)
    (match sg with SIGHUP => true | SIGTERM => pending_hup s end)
    (match sg with SIGTERM => true | SIGHUP => pending_term s end)
    (rc s) (cachemgr_sleep_time s) (config_file s) (calls s).

(** [BackgroundWorkerUnblockSignals]: the signals held back reach the
    handlers installed at lines 87-88. *)
Definition unblock (s : state) : state :=
  let s1 := if pending_hup s then cachemgr_sighup s else s in
  let s2 := if pending_term s then cachemgr_sigterm s1 else s1 in
  mkState (at_pc s2) (got_sighup s2) (got_sigterm s2) (latch_is_set s2)
    false false false (rc s2) (cachemgr_sleep_time s2) (config_file s2)
    (calls s2).

Definition set_latch (b : bool) (s : state) : state :=
  mkState (at_pc s) (got_sighup s) (got_sigterm s) b (signals_blocked s)
    (pending_hup s) (pending_term s) (rc s) (cachemgr_sleep_time s)
    (config_file s) (calls s).

Definition clear_sighup (s : state) : state :=
  mkState (at_pc s) false (got_sigterm s) (latch_is_set s) (signals_blocked s)
    (pending_hup s) (pending_term s) (rc s) (cachemgr_sleep_time s)
    (config_file s) (calls s).

Definition set_rc (r : Z) (s : state) : state :=
  mkState (at_pc s) (got_sighup s) (got_sigterm s) (latch_is_set s)
    (signals_blocked s) (pending_hup s) (pending_term s) r
    (cachemgr_sleep_time s) (config_file s) (calls s).

Definition set_sleep_time (v : Z) (s : state) : state :=
  mkState (at_pc s) (got_sighup s) (got_sigterm s) (latch_is_set s)
    (signals_blocked s) (pending_hup s) (pending_term s) (rc s) v
    (config_file s) (calls s).

Definition set_config_file (f : Init.ConfigFile) (s : state) : state :=
  mkState (at_pc s) (got_sighup s) (got_sigterm s) (latch_is_set s)
    (signals_blocked s) (pending_hup s) (pending_term s) (rc s)
    (cachemgr_sleep_time s) f (calls s).

(** Lines 101-106: the arguments of the [WaitLatch] call. *)
Definition wait_mask : Z :=
  Z.lor (Z.lor WL_LATCH_SET WL_TIMEOUT) WL_POSTMASTER_DEATH.

Definition wait_timeout (s : state) : Z := to_long (cachemgr_sleep_time s * 1000).

(** Modelled from the spec: the result of a latch wait that returns, "a
    reason bitmask (explicit-set | timeout | parent-death)". The explicit-set
    bit is reported exactly when the latch is set. *)
Definition wake_reasons (latch timeout death : bool) : Z :=
  Z.lor (Z.lor (if latch then WL_LATCH_SET else 0)
               (if timeout then WL_TIMEOUT else 0))
        (if death then WL_POSTMASTER_DEATH else 0).

(** What the environment of the worker can do:
    - [Sig sg]: a signal is sent to the worker;
    - [SetLatch]: something else than the two handlers sets the latch;
    - [Run]: the worker runs the statement it is at, the host call in it
      returning normally (a wait on a latch that is not set does not
      return: the worker stays where it is);
    - [Fail]: the unit of work the worker is at raises an error;
    - [Wake timeout death]: the latch wait the worker is in returns, with
      the timeout elapsed and/or the death of the postmaster noticed;
    - [EditConfig f]: the configuration file is replaced by [f]. *)
Inductive event :=
| Sig (sg : Signal)
| SetLatch
| Run
| Fail
| Wake (timeout death : bool)
| EditConfig (f : Init.ConfigFile).

Definition stopped (s : state) : bool :=
  match stmt_at (at_pc s) with
  | SStop => true
  | _ => false
  end.

(** Modelled from the spec: [WaitLatch] returning with reasons [r]; it does
    not return with no reason. *)
Definition wait_returns (r : Z) (next : pc) (s : state) : state :=
  if r =? 0 then s
  else goto next (set_rc r (emit (WaitLatch wait_mask (wait_timeout s)) s)).

(** One statement of [cachemgr_main]. *)
Definition exec (s : state) : state :=
  match stmt_at (at_pc s) with
  | SCall c next => goto next (emit c s)
  | SUnblock next => goto next (emit BackgroundWorkerUnblockSignals (unblock s))
  | SWork next => goto next (emit DO_SOME_STUFF s)
  | SWhile body exit => if got_sigterm s then goto exit s else goto body s
  | SWait next => wait_returns (wake_reasons (latch_is_set s) false false) next s
  | SReset next => goto next (emit ResetLatch (set_latch false s))
  | SIfDeath yes no =>
      if Z.land (rc s) WL_POSTMASTER_DEATH =? 0 then goto no s else goto yes s
  | SIfHup yes no => if got_sighup s then goto yes s else goto no s
  | SClearHup next => goto next (clear_sighup s)
  | SReload next =>
      goto next
        (emit ProcessConfigFile
           (set_sleep_time
              (Init.reload_int (config_file s) Init.sleep_time_guc
                 (cachemgr_sleep_time s)) s))
  | SExit code => goto (Exited code) (emit (proc_exit code) s)
  | SStop => s
  end.

Definition step (e : event) (s : state) : state :=
  match e with
  | Sig sg =>
      if stopped s then s
      else if signals_blocked s then hold sg s
      else handler sg s
  | SetLatch => if stopped s then s else set_latch true s
  | Run => exec s
  | Fail =>
      match stmt_at (at_pc s) with
      | SWork _ => goto Raised s
      | _ => s
      end
  | Wake timeout death =>
      match stmt_at (at_pc s) with
      | SWait next => wait_returns (wake_reasons (latch_is_set s) timeout death) next s
      | _ => s
      end
  | EditConfig f => set_config_file f s
  end.

Definition run (evs : list event) (s : state) : state :=
  fold_left (fun s e => step e s) evs s.

(** The worker as the postmaster starts it: signals blocked, nothing done
    yet, the setting as [_PG_init] left it. *)
Definition start (sleep_time : Z) (file : Init.ConfigFile) : state :=
  mkState L87 false false false true false false 0 sleep_time file [].

Definition reachable (s : state) : Prop :=
  exists sleep_time file evs,
    1 <= sleep_time <= Init.INT_MAX /\ s = run evs (start sleep_time file).


(** *** Traces and the paths out of the loop *)

Definition is_run (e : event) : bool :=
  match e with Run => true | _ => false end.

Definition is_fail (e : event) : bool :=
  match e with Fail => true | _ => false end.

(** The number of statements the worker is let to run in a trace. *)
Definition runs (evs : list event) : nat := List.length (filter is_run evs).

(** No unit of work fails in the trace. *)
Definition no_failure (evs : list event) : Prop :=
  Forall (fun e => is_fail e = false) evs.

(** Neither a failure, nor a request to terminate, nor the death of the
    postmaster. *)
Definition quiet (e : event) : bool :=
  match e with
  | Fail => false
  | Sig SIGTERM => false
  | Wake _ true => false
  | _ => true
  end.

(** [rc & WL_POSTMASTER_DEATH]. *)
Definition death_reported (s : state) : bool :=
  negb (Z.land (rc s) WL_POSTMASTER_DEATH =? 0).

(** Lines 124-136: the calls of one work cycle of the loop. *)
Definition work_cycle : list Call :=
  [ SetCurrentStatementStartTimestamp; StartTransactionCommand; SPI_connect;
    PushActiveSnapshot; pgstat_report_activity STATE_RUNNING (Some "Foobar");
    DO_SOME_STUFF; SPI_finish; PopActiveSnapshot; CommitTransactionCommand;
    pgstat_report_stat false; pgstat_report_activity STATE_IDLE None ].

(** How far into the work cycle a program point is. *)
Definition cycle_index (p : pc) : option nat :=
  match p with
  | L124 => Some 0%nat | L125 => Some 1%nat | L126 => Some 2%nat
  | L127 => Some 3%nat | L128 => Some 4%nat | L130 => Some 5%nat
  | L132 => Some 6%nat | L133 => Some 7%nat | L134 => Some 8%nat
  | L135 => Some 9%nat | L136 => Some 10%nat
  | _ => None
  end.

Definition in_work_cycle (p : pc) : bool :=
  match cycle_index p with Some _ => true | None => false end.

(** The calls of the work cycle still to be made at [p]. *)
Definition rest_of_cycle (p : pc) : list Call :=
  match cycle_index p with
  | Some k => skipn k work_cycle
  | None => []
  end.

(** Once [got_sigterm] is set and the wait has returned without reporting
    the death of the postmaster: the call sequences that can still follow at
    each program point, up to the exit of line 139. Line 118 has two, with
    and without the reload of the configuration. Empty off that path. *)
Definition term_rests (p : pc) : list (list Call) :=
  let finish := (work_cycle ++ [proc_exit 1])%list in
  match p with
  | L108 => [ ResetLatch :: CHECK_FOR_INTERRUPTS :: finish;
              ResetLatch :: CHECK_FOR_INTERRUPTS :: ProcessConfigFile :: finish ]
  | L110 | L116 => [ CHECK_FOR_INTERRUPTS :: finish;
                     CHECK_FOR_INTERRUPTS :: ProcessConfigFile :: finish ]
  | L118 => [ finish; ProcessConfigFile :: finish ]
  | L120 | L121 => [ ProcessConfigFile :: finish ]
  | L97 | L139 => [ [proc_exit 1] ]
  | Exited code => if code =? 1 then [ [] ] else []
  | _ =>
      match cycle_index p with
      | Some k => [ (skipn k work_cycle ++ [proc_exit 1])%list ]
      | None => []
      end
  end.

(** A bound on the statements still to run on that path. *)
Definition term_dist (p : pc) : nat :=
  match p with
  | L108 => 19 | L110 => 18 | L116 => 17 | L118 => 16 | L120 => 15 | L121 => 14
  | L97 => 2 | L139 => 1
  | _ =>
      match cycle_index p with
      | Some k => 13 - k
      | None => 0
      end
  end%nat.

(** Once the wait has reported the death of the postmaster. *)
Definition death_rests (p : pc) : list (list Call) :=
  match p with
  | L108 => [ [ResetLatch; proc_exit 1] ]
  | L110 | L113 => [ [proc_exit 1] ]
  | Exited code => if code =? 1 then [ [] ] else []
  | _ => []
  end.

Definition death_dist (p : pc) : nat :=
  match p with
  | L108 => 3 | L110 => 2 | L113 => 1
  | _ => 0
  end%nat.

(** The program points of the loop of lines 97-137, the two exits apart:
    the worker is idle (97, 101) or working. *)
Definition in_loop (p : pc) : bool :=
  match p with
  | L97 | L101 | L108 | L110 | L116 | L118 | L120 | L121 => true
  | _ => in_work_cycle p
  end.

(** The loop is running and nothing has asked it to stop. *)
Definition loop_live (s : state) : Prop :=
  in_loop (at_pc s) = true
  /\ got_sigterm s = false
  /\ (at_pc s = L108 \/ at_pc s = L110 -> death_reported s = false).



(** One turn of the loop woken by its timeout, with no reload: the wait
    returns, then lines 108-136 and the test of line 97 run. *)
Definition timeout_turn : list event := Wake true false :: repeat Run 16.

Fixpoint timeout_turns (n : nat) : list event :=
  match n with
  | O => []
  | S n' => (timeout_turn ++ timeout_turns n')%list
  end.

(** The calls of such a turn, for a given timeout. *)
Definition turn_calls (timeout : Z) : list Call :=
  (WaitLatch wait_mask timeout :: ResetLatch :: CHECK_FOR_INTERRUPTS
     :: work_cycle)%list.

Fixpoint turns_calls (timeout : Z) (n : nat) : list Call :=
  match n with
  | O => []
  | S n' => (turn_calls timeout ++ turns_calls timeout n')%list
  end.

(** From the start to the first wait: lines 87-92, [initialize_cachemgr],
    the test of line 97. *)
Definition to_first_wait : list event := repeat Run 15.

(** The worker with the default settings, blocked in its first wait. *)
Definition first_wait : state := run to_first_wait (start 10 []).

(** The same worker once a SIGTERM has woken it from that wait. *)
Definition woken_by_sigterm : state := run [Sig SIGTERM; Run] first_wait.

(** The same worker at the unit of work of its first cycle, after a wake-up
    by timeout. *)
Definition first_unit_of_work : state :=
  run (Wake true false :: repeat Run 9) first_wait.

(** C2 as the specification words it: a worker that finds [got_sigterm]
    set when its wait returns starts no further work cycle. *)
Definition termination_at_wake_skips_work : Prop :=
  forall (s : state) (evs : list event) (done : list Call),
    reachable s -> at_pc s = L108 -> got_sigterm s = true ->
    calls (run evs s) = (calls s ++ done)%list ->
    ~ In StartTransactionCommand done.

(** C4 as the specification words it: the loop outlives a unit of work that
    fails. *)
Definition work_failure_is_survived : Prop :=
  forall (s : state) (evs : list event),
    reachable s -> at_pc s = L130 ->
    stopped (run evs (step Fail s)) = false.

(** *** Bookkeeping on the log of calls *)

(** How many calls of a kind the log holds. *)
Definition count (f : Call -> bool) (cs : list Call) : nat :=
  List.length (filter f cs).

Definition is_reload (c : Call) : bool :=
  match c with ProcessConfigFile => true | _ => false end.

Definition is_wait (c : Call) : bool :=
  match c with WaitLatch _ _ => true | _ => false end.

Definition is_report_stat (c : Call) : bool :=
  match c with pgstat_report_stat _ => true | _ => false end.

Definition is_start (c : Call) : bool :=
  match c with StartTransactionCommand => true | _ => false end.

Definition is_commit (c : Call) : bool :=
  match c with CommitTransactionCommand => true | _ => false end.

Definition is_connect (c : Call) : bool :=
  match c with SPI_connect => true | _ => false end.

Definition is_finish (c : Call) : bool :=
  match c with SPI_finish => true | _ => false end.

Definition is_push (c : Call) : bool :=
  match c with PushActiveSnapshot => true | _ => false end.

Definition is_pop (c : Call) : bool :=
  match c with PopActiveSnapshot => true | _ => false end.

Definition is_sighup (e : event) : bool :=
  match e with Sig SIGHUP => true | _ => false end.

(** The SIGHUP signals sent in a trace. *)
Definition sighups (evs : list event) : nat := List.length (filter is_sighup evs).

Definition b2n (b : bool) : nat := if b then 1%nat else 0%nat.

(** Lines 87-92 and the body of [initialize_cachemgr]: what the worker does
    before it first tests the condition of its loop. *)
Definition startup_calls : list Call :=
  [ pqsignal SIGHUP; pqsignal SIGTERM; BackgroundWorkerUnblockSignals;
    BackgroundWorkerInitializeConnection "postgres";
    SetCurrentStatementStartTimestamp; StartTransactionCommand; SPI_connect;
    PushActiveSnapshot;
    pgstat_report_activity STATE_RUNNING (Some "Initializing Cache Manager");
    DO_SOME_STUFF; SPI_finish; PopActiveSnapshot; CommitTransactionCommand;
    pgstat_report_activity STATE_IDLE None ].

(** How many of these calls are made when the worker is at a program point
    of the start-up. *)
Definition startup_index (p : pc) : option nat :=
  match p with
  | L87 => Some 0 | L88 => Some 1 | L90 => Some 2 | L92 => Some 3
  | L65 => Some 4 | L66 => Some 5 | L67 => Some 6 | L68 => Some 7
  | L69 => Some 8 | L71 => Some 9 | L74 => Some 10 | L75 => Some 11
  | L76 => Some 12 | L77 => Some 13
  | _ => None
  end%nat.

(** The reloads of the configuration still owed to the SIGHUP signals
    received: one for a flag that is set, one for a signal held back, one when
    line 118 has found the flag set and line 121 has not run yet (at line
    120 the flag is the one about to be cleared). *)
Definition reload_due (s : state) : nat :=
  match at_pc s with
  | L120 => 1 + b2n (pending_hup s)
  | L121 => 1 + b2n (got_sighup s) + b2n (pending_hup s)
  | _ => b2n (got_sighup s) + b2n (pending_hup s)
  end%nat.

(** Between [StartTransactionCommand] and [CommitTransactionCommand]. *)
Definition in_transaction (p : pc) : bool :=
  match p with
  | L67 | L68 | L69 | L71 | L74 | L75 | L76
  | L126 | L127 | L128 | L130 | L132 | L133 | L134 | Raised => true
  | _ => false
  end.

(** Between [SPI_connect] and [SPI_finish]. *)
Definition in_spi (p : pc) : bool :=
  match p with
  | L68 | L69 | L71 | L74
  | L127 | L128 | L130 | L132 | Raised => true
  | _ => false
  end.

(** Between [PushActiveSnapshot] and [PopActiveSnapshot]. *)
Definition in_snapshot (p : pc) : bool :=
  match p with
  | L69 | L71 | L74 | L75
  | L128 | L130 | L132 | L133 | Raised => true
  | _ => false
  end.

(** After a wait has returned and before the work cycle it leads to has
    reported its statistics (line 135). *)
Definition wait_ahead (p : pc) : bool :=
  match p with
  | L108 | L110 | L113 | L116 | L118 | L120 | L121
  | L124 | L125 | L126 | L127 | L128 | L130 | L132 | L133 | L134 | L135 => true
  | _ => false
  end.

(** From the test of line 97 with [got_sigterm] set: the calls that can
    still follow, and the statements still to run. *)
Definition exit_rests (p : pc) : list (list Call) :=
  match p with
  | L97 | L139 => [ [proc_exit 1] ]
  | Exited code => if code =? 1 then [ [] ] else []
  | _ => []
  end.

Definition exit_dist (p : pc) : nat :=
  match p with
  | L97 => 2 | L139 => 1
  | _ => 0
  end%nat.

(** The statements of one turn of the loop after the wait has returned:
    lines 108-136 and the test of line 97, with lines 120-121 when a SIGHUP
    is pending. *)
Definition turn_length (sighup : bool) : nat := if sighup then 18%nat else 16%nat.

(** Once [got_sigterm] is set and the wait has returned without reporting
    the death of the postmaster, as [term_rests], but with the test of line
    118 decided: [sighup] tells whether [got_sighup] is set when line 118
    reads it. With it set the reload of lines 120-121 is part of what
    follows; with it clear lines 120-121 are off the path. *)
Definition reload_rests (sighup : bool) (p : pc) : list (list Call) :=
  let finish := (work_cycle ++ [proc_exit 1])%list in
  let reload := if sighup then [ProcessConfigFile] else [] in
  match p with
  | L108 => [ (ResetLatch :: CHECK_FOR_INTERRUPTS :: reload ++ finish)%list ]
  | L110 | L116 => [ (CHECK_FOR_INTERRUPTS :: reload ++ finish)%list ]
  | L118 => [ (reload ++ finish)%list ]
  | L120 | L121 => if sighup then [ ProcessConfigFile :: finish ] else []
  | L97 | L139 => [ [proc_exit 1] ]
  | Exited code => if code =? 1 then [ [] ] else []
  | _ =>
      match cycle_index p with
      | Some k => [ (skipn k work_cycle ++ [proc_exit 1])%list ]
      | None => []
      end
  end.

(** The events that leave the test of line 118 as [sighup] says: no unit of
    work fails and, when [got_sighup] is to be found clear, no SIGHUP is
    sent. *)
Definition keeps_reload (sighup : bool) (e : event) : bool :=
  negb (is_fail e) && (sighup || negb (is_sighup e)).

(** The worker with the default settings, woken from its first wait with
    both a SIGHUP and a SIGTERM received. *)
Definition woken_with_both : state :=
  run [Sig SIGHUP; Sig SIGTERM; Run] first_wait.

(** [x] read as a two's-complement [long] of [bits] bits; [to_long] is the
    case of 64 bits. *)
Definition wrap_long (bits : Z) (x : Z) : Z :=
  (x + 2 ^ (bits - 1)) mod 2 ^ bits - 2 ^ (bits - 1).

(** The worker at its first wait with the sleep time set to [sleep_time]. *)
Definition first_wait_with (sleep_time : Z) : state :=
  run to_first_wait (start sleep_time []).

End Worker.

(** * Properties *)

Unset Implicit Arguments.

(** ** Dynamic launch *)

Section LaunchFacts.
Import Launch.

Variable Handle : Type.
Variable h : Host Handle.
Variable i : Z.

Lemma launch_after_registration (handle : Handle) (status : BgwHandleStatus) (pid : Z) :
  RegisterDynamicBackgroundWorker h (launch_worker (MyProcPid h) i) = Some handle ->
  WaitForBackgroundWorkerStartup h handle = (status, pid) ->
  cachemgr_launch h i =
    match status with
    | BGWH_STOPPED => ereport_ERROR err_stopped
    | BGWH_POSTMASTER_DIED => ereport_ERROR err_postmaster_died
    | BGWH_STARTED => PG_RETURN_INT32 pid
    | BGWH_NOT_YET_STARTED =>
        if assert_enabled h then AssertFailed else PG_RETURN_INT32 pid
    end.
Proof.
  intros Hreg Hwait. unfold cachemgr_launch.
  rewrite Hreg, Hwait.
  destruct status; simpl; try reflexivity.
  - now rewrite andb_false_r.
  - now rewrite andb_true_r.
Qed.

(** C1, as amended: after a registration that succeeded the outcome follows
    the status the wait reports. [BGWH_STOPPED]: the error "Could not start
    background process" with the code of insufficient resources.
    [BGWH_POSTMASTER_DIED]: an error with that same code, which only its
    message and hint tell apart from the first. [BGWH_STARTED]: the pid the
    wait reported. *)
Theorem launch_outcome_follows_status
    (handle : Handle) (status : BgwHandleStatus) (pid : Z) :
  RegisterDynamicBackgroundWorker h (launch_worker (MyProcPid h) i) = Some handle ->
  WaitForBackgroundWorkerStartup h handle = (status, pid) ->
  (status = BGWH_STOPPED ->
     cachemgr_launch h i = ereport_ERROR err_stopped
     /\ error_kind (cachemgr_launch h i) = Some ERRCODE_INSUFFICIENT_RESOURCES
     /\ message err_stopped = "Could not start background process")
  /\ (status = BGWH_POSTMASTER_DIED ->
     cachemgr_launch h i = ereport_ERROR err_postmaster_died
     /\ error_kind (cachemgr_launch h i) = Some ERRCODE_INSUFFICIENT_RESOURCES
     /\ message err_postmaster_died <> message err_stopped
     /\ hint err_postmaster_died <> hint err_stopped)
  /\ (status = BGWH_STARTED -> cachemgr_launch h i = PG_RETURN_INT32 pid).
Proof.
  intros Hreg Hwait.
  pose proof (launch_after_registration handle status pid Hreg Hwait) as E.
  split; [|split]; intros ->; rewrite E; repeat split; simpl; discriminate.
Qed.

(** C9: a refused dynamic registration makes the launch return the SQL null:
    neither a pid nor an error, and whatever the wait would have reported. *)
Theorem launch_refused_returns_null :
  RegisterDynamicBackgroundWorker h (launch_worker (MyProcPid h) i) = None ->
  cachemgr_launch h i = PG_RETURN_NULL
  /\ (forall pid, cachemgr_launch h i <> PG_RETURN_INT32 pid)
  /\ (forall e, cachemgr_launch h i <> ereport_ERROR e)
  /\ cachemgr_launch h i <> AssertFailed.
Proof.
  intros Hreg. unfold cachemgr_launch. rewrite Hreg.
  repeat split; intros; discriminate.
Qed.

End LaunchFacts.

Lemma launch_outcome_follows_status_witness :
  Launch.cachemgr_launch (Launch.reporting_host Launch.BGWH_POSTMASTER_DIED 77) 3
    = Launch.ereport_ERROR Launch.err_postmaster_died
  /\ Launch.cachemgr_launch (Launch.reporting_host Launch.BGWH_STARTED 77) 3
    = Launch.PG_RETURN_INT32 77.
Proof.
  split.
  - apply (launch_outcome_follows_status unit
             (Launch.reporting_host Launch.BGWH_POSTMASTER_DIED 77) 3 tt
             Launch.BGWH_POSTMASTER_DIED 77 eq_refl eq_refl).
    reflexivity.
  - apply (launch_outcome_follows_status unit
             (Launch.reporting_host Launch.BGWH_STARTED 77) 3 tt
             Launch.BGWH_STARTED 77 eq_refl eq_refl).
    reflexivity.
Defined.

Lemma launch_refused_returns_null_witness :
  Launch.cachemgr_launch Launch.refusing_host 3 = Launch.PG_RETURN_NULL.
Proof.
  apply (launch_refused_returns_null unit Launch.refusing_host 3). reflexivity.
Defined.

(** C1, as stated, fails: against a host that reports the death of the
    postmaster the launch raises the very error code it raises for a worker
    that stopped. *)
Lemma postmaster_death_kind_not_distinct :
  ~ Launch.postmaster_death_has_own_kind.
Proof.
  intros H.
  destruct (H unit (Launch.reporting_host Launch.BGWH_POSTMASTER_DIED 77) 3 tt 77
              eq_refl eq_refl) as [k [Hk Hne]].
  simpl in Hk. injection Hk as <-. now apply Hne.
Qed.

(** With assertions compiled in, a status that is none of the three is
    caught by the [Assert] of line 254. *)
Lemma launch_not_yet_started_asserts :
  Launch.cachemgr_launch (Launch.reporting_host Launch.BGWH_NOT_YET_STARTED 0) 3
    = Launch.AssertFailed.
Proof. reflexivity. Qed.

(** ** Module initialisation *)

Section InitFacts.
Import Init.

Lemma set_index_twice (w : BackgroundWorker) (i j : Z) :
  set_index (set_index w i) j = set_index w j.
Proof. reflexivity. Qed.

Lemma registered_app (a b : list InitEvent) :
  registered (a ++ b) = (registered a ++ registered b)%list.
Proof.
  induction a as [|e a IH]; simpl; [reflexivity|].
  destruct e; simpl; now rewrite IH.
Qed.

Lemma registered_of_registrations (ws : list BackgroundWorker) :
  registered (map RegisterBackgroundWorker ws) = ws.
Proof. induction ws as [|w ws IH]; simpl; congruence. Qed.

Lemma length_indices (i : Z) (n : nat) : List.length (indices i n) = n.
Proof. revert i; induction n as [|n IH]; intros i; simpl; auto. Qed.

(** The loop of lines 194-200 on a count that fits: [n] iterations from
    [i] to [count], one registration each, and it ends. *)
Lemma register_loop_runs (n : nat) :
  forall (fuel : nat) (i count : Z) (w : BackgroundWorker),
    1 <= i -> i + Z.of_nat n = count + 1 -> count < 2 ^ 32 - 1 ->
    (n < fuel)%nat ->
    register_loop fuel i count w =
      Some (map RegisterBackgroundWorker (map (set_index w) (indices i n))).
Proof.
  induction n as [|n IH]; intros fuel i count w Hi Hn Hc Hf;
    (destruct fuel as [|fuel]; [lia|]); cbn [register_loop];
    unfold to_unsigned; change (2 ^ 32) with 4294967296 in *;
    rewrite (Z.mod_small count) by lia.
  - destruct (Z.leb_spec i count); [lia|reflexivity].
  - destruct (Z.leb_spec i count); [|lia].
    rewrite (Z.mod_small (i + 1)) by lia.
    rewrite (IH fuel (i + 1) count (set_index w i)) by lia.
    reflexivity.
Qed.

Lemma lookup_worker_count_rejected (file : ConfigFile) (v : Z) :
  lookup (guc_name worker_count_guc) file = Some v ->
  in_range worker_count_guc v = false ->
  DefineCustomIntVariable file worker_count_guc
    = (1, [Defined worker_count_guc; GucRejected "cachemgr.worker_count" v]).
Proof.
  intros Hl Hr. unfold DefineCustomIntVariable. now rewrite Hl, Hr.
Qed.

(** C5: at startup ([process_shared_preload_libraries_in_progress] set),
    with [v] the worker count the configuration holds: for [v] in [1,50]
    [_PG_init] ends and registers exactly [v] static workers, those of
    indices 1 to [v]; a [v] outside [1,50] is rejected when the setting is
    defined, before any registration, and is never the worker count. *)
Theorem static_registration_count
    (file : ConfigFile) (g : Globals) (fuel : nat) (v : Z) :
  lookup "cachemgr.worker_count" file = Some v ->
  (51 <= fuel)%nat ->
  exists g' evs,
    _PG_init fuel true file g = Some (g', evs)
    /\ (1 <= v <= 50 ->
          cachemgr_worker_count g' = v
          /\ registered evs = map static_worker (indices 1 (Z.to_nat v))
          /\ List.length (registered evs) = Z.to_nat v
          /\ ~ In (GucRejected "cachemgr.worker_count" v) evs)
    /\ (~ 1 <= v <= 50 ->
          cachemgr_worker_count g' <> v
          /\ exists before after,
               evs = (before ++ GucRejected "cachemgr.worker_count" v :: after)%list
               /\ registered before = []).
Proof.
  intros Hl Hf. unfold _PG_init.
  destruct (DefineCustomIntVariable file sleep_time_guc) as [sleep ev1] eqn:E1.
  assert (R1 : registered ev1 = []).
  { unfold DefineCustomIntVariable in E1.
    destruct (lookup (guc_name sleep_time_guc) file);
      [destruct (in_range sleep_time_guc z)|]; inversion E1; reflexivity. }
  assert (N1 : ~ In (GucRejected "cachemgr.worker_count" v) ev1).
  { unfold DefineCustomIntVariable in E1.
    destruct (lookup (guc_name sleep_time_guc) file);
      [destruct (in_range sleep_time_guc z)|]; inversion E1; simpl;
      intuition discriminate. }
  simpl negb. cbv iota.
  destruct (in_range worker_count_guc v) eqn:Er.
  - (* accepted *)
    assert (Hv : 1 <= v <= 50).
    { unfold in_range in Er. simpl in Er. lia. }
    unfold DefineCustomIntVariable at 1. simpl guc_name. rewrite Hl, Er.
    rewrite (register_loop_runs (Z.to_nat v) fuel 1 v worker_template) by lia.
    eexists; eexists; split; [reflexivity|]. split; [|intros; lia].
    intros _. simpl cachemgr_worker_count.
    rewrite !registered_app, R1. simpl registered at 1.
    rewrite registered_of_registrations. simpl app.
    repeat split.
    + now rewrite length_map, length_indices.
    + intros Hin. apply in_app_or in Hin. destruct Hin as [Hin|Hin]; [tauto|].
      simpl in Hin. destruct Hin as [Hin|Hin]; [discriminate|].
      apply in_map_iff in Hin. destruct Hin as [w [Hw _]]. discriminate.
  - (* rejected *)
    assert (Hv : ~ 1 <= v <= 50).
    { unfold in_range in Er. simpl in Er. lia. }
    rewrite (lookup_worker_count_rejected file v Hl Er).
    rewrite (register_loop_runs 1 fuel 1 1 worker_template) by lia.
    eexists; eexists; split; [reflexivity|]. split; [intros; lia|].
    intros _. split; [simpl; lia|].
    exists (ev1 ++ [Defined worker_count_guc])%list. eexists. split.
    + rewrite <- app_assoc. reflexivity.
    + rewrite registered_app, R1. reflexivity.
Qed.

(** Outside startup [_PG_init] stops at line 165: the worker count is not
    even defined as a setting, and nothing is registered. *)
Lemma PG_init_outside_startup (file : ConfigFile) (g : Globals) (fuel : nat) :
  exists g' evs,
    _PG_init fuel false file g = Some (g', evs)
    /\ registered evs = []
    /\ cachemgr_worker_count g' = cachemgr_worker_count g.
Proof.
  unfold _PG_init, DefineCustomIntVariable.
  destruct (lookup (guc_name sleep_time_guc) file);
    [destruct (in_range sleep_time_guc z)|];
    simpl; eexists; eexists; repeat split; reflexivity.
Qed.

(** The sleep time [_PG_init] leaves is 10 unless the configuration sets
    it, and never below 1. *)
Lemma PG_init_sleep_time (file : ConfigFile) (g g' : Globals)
    (fuel : nat) (preload : bool) (evs : list InitEvent) :
  _PG_init fuel preload file g = Some (g', evs) ->
  1 <= cachemgr_sleep_time g' <= INT_MAX
  /\ (lookup "cachemgr.sleep_time" file = None -> cachemgr_sleep_time g' = 10).
Proof.
  unfold _PG_init.
  destruct (DefineCustomIntVariable file sleep_time_guc) as [sleep ev1] eqn:E1.
  assert (Hs : 1 <= sleep <= INT_MAX
               /\ (lookup "cachemgr.sleep_time" file = None -> sleep = 10)).
  { unfold DefineCustomIntVariable in E1. simpl guc_name in E1.
    destruct (lookup "cachemgr.sleep_time" file) as [z|].
    - destruct (in_range sleep_time_guc z) eqn:Er; inversion E1; subst.
      + unfold in_range in Er. simpl in Er. split; [lia|discriminate].
      + simpl. unfold INT_MAX. split; [lia|discriminate].
    - inversion E1; subst. simpl. unfold INT_MAX. split; [lia|reflexivity]. }
  destruct preload; simpl negb; cbv iota.
  - destruct (DefineCustomIntVariable file worker_count_guc) as [count ev2].
    destruct (register_loop fuel 1 count worker_template); [|discriminate].
    intros H; inversion H; subst; exact Hs.
  - intros H; inversion H; subst; exact Hs.
Qed.

End InitFacts.

Lemma static_registration_count_witness :
  exists g' evs,
    Init._PG_init 60 true [("cachemgr.worker_count", 3)] Init.static_globals
      = Some (g', evs)
    /\ List.length (Init.registered evs) = 3%nat.
Proof.
  destruct (static_registration_count [("cachemgr.worker_count", 3)]
              Init.static_globals 60 3 eq_refl ltac:(lia))
    as [g' [evs [E [Hin _]]]].
  exists g', evs. split; [exact E|].
  destruct (Hin ltac:(lia)) as [_ [_ [Hlen _]]]. exact Hlen.
Defined.

(** ** The worker *)

Section WorkerFacts.
Import Worker.

(** Case analysis over a step: the program point, the event, and the
    booleans the statement at hand tests. *)
Ltac split_state s :=
  destruct s as [p hup term latch blocked ph pt r sleep file cs].

Ltac split_event e :=
  destruct e as [[|]| | | |timeout death|f].

Ltac split_bools :=
  repeat match goal with
         | |- context [if ?b then _ else _] =>
             first [ is_var b; destruct b | destruct b eqn:? ]
         | H : context [if ?b then _ else _] |- _ =>
             first [ is_var b; destruct b | destruct b eqn:? ]
         end.

Ltac by_cases s e :=
  split_state s; split_event e;
  match goal with
  | p : pc |- _ => destruct p
  end;
  cbn in *; unfold wait_returns, wake_reasons in *; cbn in *;
  split_bools; cbn in *.

Lemma run_app (a b : list event) (s : state) :
  run (a ++ b) s = run b (run a s).
Proof. unfold run. apply fold_left_app. Qed.

Lemma run_cons (e : event) (evs : list event) (s : state) :
  run (e :: evs) s = run evs (step e s).
Proof. reflexivity. Qed.

Lemma runs_cons (e : event) (evs : list event) :
  runs (e :: evs) = ((if is_run e then 1 else 0) + runs evs)%nat.
Proof. unfold runs. simpl. destruct (is_run e); reflexivity. Qed.

(** What holds at the start and is kept by every step holds of every
    reachable state. *)
Lemma reachable_ind (P : state -> Prop) :
  (forall sleep_time file, 1 <= sleep_time <= Init.INT_MAX -> P (start sleep_time file)) ->
  (forall s e, P s -> P (step e s)) ->
  forall s, reachable s -> P s.
Proof.
  intros Hstart Hstep s (sleep_time & file & evs & Hr & ->).
  pose proof (Hstart sleep_time file Hr) as H0.
  generalize dependent (start sleep_time file).
  induction evs as [|e evs IH]; intros s0 H0; simpl; auto.
Qed.

Lemma reachable_step (s : state) (e : event) :
  reachable s -> reachable (step e s).
Proof.
  intros (sleep_time & file & evs & Hr & ->).
  exists sleep_time, file, (evs ++ [e])%list. split; [exact Hr|].
  now rewrite run_app.
Qed.

Lemma reachable_run (evs : list event) (s : state) :
  reachable s -> reachable (run evs s).
Proof.
  revert s. induction evs as [|e evs IH]; intros s H; simpl; auto.
  apply IH, reachable_step, H.
Qed.

(** *** Signals *)

(** A signal never moves the worker: the handler sets a flag and the latch
    and returns to the statement that was running. *)
Lemma signal_keeps_control (s : state) (sg : Signal) :
  at_pc (step (Sig sg) s) = at_pc s
  /\ calls (step (Sig sg) s) = calls s
  /\ rc (step (Sig sg) s) = rc s
  /\ cachemgr_sleep_time (step (Sig sg) s) = cachemgr_sleep_time s.
Proof.
  unfold step. destruct (stopped s); [auto|].
  destruct (signals_blocked s); destruct sg; auto.
Qed.

(** Signals are blocked up to line 90 only, and no flag is set before. *)
Lemma blocked_only_at_setup (s : state) :
  reachable s ->
  signals_blocked s = true ->
  (at_pc s = L87 \/ at_pc s = L88 \/ at_pc s = L90)
  /\ got_sighup s = false /\ got_sigterm s = false.
Proof.
  revert s.
  apply (reachable_ind (fun s =>
    signals_blocked s = true ->
    (at_pc s = L87 \/ at_pc s = L88 \/ at_pc s = L90)
    /\ got_sighup s = false /\ got_sigterm s = false)).
  - intros; simpl; auto.
  - intros s e IH. by_cases s e; intros; try discriminate;
      try (destruct IH as (? & ? & ?); [reflexivity|]; subst);
      intuition (try discriminate; auto).
Qed.

(** [got_sigterm] is never cleared. *)
Lemma got_sigterm_sticky (s : state) (e : event) :
  got_sigterm s = true -> got_sigterm (step e s) = true.
Proof. by_cases s e; intros; auto; try discriminate. Qed.

(** *** Paths

    A path gives, for the program points on it, the call sequences that can
    still follow ([rests]) and a bound on the statements still to run
    ([dist]). When every step allowed on the path keeps the worker on it,
    extends the calls made along one of these sequences and runs down the
    bound, so does every trace. *)
Section Path.

Variable rests : pc -> list (list Call).
Variable dist : pc -> nat.
Variable cond : state -> Prop.
Variable allowed : event -> bool.

Hypothesis path_step :
  forall s e,
    cond s -> rests (at_pc s) <> [] -> allowed e = true ->
    cond (step e s)
    /\ rests (at_pc (step e s)) <> []
    /\ (forall r', In r' (rests (at_pc (step e s))) ->
          exists r, (calls (step e s) ++ r' = calls s ++ r)%list
                    /\ In r (rests (at_pc s)))
    /\ (dist (at_pc (step e s))
          <= dist (at_pc s) - (if is_run e then 1 else 0))%nat.

Lemma path_run (evs : list event) :
  forall s,
    cond s -> rests (at_pc s) <> [] ->
    Forall (fun e => allowed e = true) evs ->
    cond (run evs s)
    /\ rests (at_pc (run evs s)) <> []
    /\ (forall r', In r' (rests (at_pc (run evs s))) ->
          exists r, (calls (run evs s) ++ r' = calls s ++ r)%list
                    /\ In r (rests (at_pc s)))
    /\ (dist (at_pc (run evs s)) <= dist (at_pc s) - runs evs)%nat.
Proof.
  induction evs as [|e evs IH]; intros s Hc Hp Ha.
  - simpl. repeat split; auto; [|unfold runs; simpl; lia].
    intros r' Hr'. exists r'. auto.
  - inversion Ha as [|? ? Hae Hevs]; subst.
    destruct (path_step s e Hc Hp Hae) as (Hc1 & Hp1 & Hr1 & Hd1).
    destruct (IH (step e s) Hc1 Hp1 Hevs) as (Hc2 & Hp2 & Hr2 & Hd2).
    rewrite run_cons. repeat split; auto.
    + intros r' Hr'. destruct (Hr2 r' Hr') as (r1 & E1 & Hin1).
      destruct (Hr1 r1 Hin1) as (r & E & Hin).
      exists r. split; [|exact Hin]. now rewrite E1.
    + rewrite runs_cons. lia.
Qed.

End Path.

Ltac extend_calls :=
  let r' := fresh "r'" in
  let Hin := fresh "Hin" in
  intros r' Hin; cbn in Hin;
  repeat match goal with
         | H : _ \/ _ |- _ => destruct H
         | H : False |- _ => destruct H
         end;
  subst; eexists;
  (split; [ rewrite <- ?app_assoc; reflexivity | cbn; auto 10 ]).

(** The path to the exit of line 139, for a worker whose [got_sigterm] is
    set and whose unit of work does not fail. *)
Lemma term_path_step (s : state) (e : event) :
  (got_sigterm s = true
   /\ (at_pc s = L108 \/ at_pc s = L110 -> death_reported s = false)) ->
  term_rests (at_pc s) <> [] ->
  negb (is_fail e) = true ->
  (got_sigterm (step e s) = true
   /\ (at_pc (step e s) = L108 \/ at_pc (step e s) = L110 ->
       death_reported (step e s) = false))
  /\ term_rests (at_pc (step e s)) <> []
  /\ (forall r', In r' (term_rests (at_pc (step e s))) ->
        exists r, (calls (step e s) ++ r' = calls s ++ r)%list
                  /\ In r (term_rests (at_pc s)))
  /\ (term_dist (at_pc (step e s))
        <= term_dist (at_pc s) - (if is_run e then 1 else 0))%nat.
Proof.
  unfold death_reported.
  by_cases s e; intros [Ht Hd] Hp Hf;
    try discriminate; try congruence;
    try (rewrite Z.eqb_refl in *; cbn in * );
    repeat match goal with
           | |- _ /\ _ => split
           end;
    try discriminate; try lia; try extend_calls; auto;
    try (intros [?|?]; discriminate);
    try match goal with
        | H : _ -> true = false |- _ =>
            assert (true = false) by (apply H; auto); discriminate
        end.
Qed.

Lemma term_path_end (p : pc) :
  term_rests p <> [] -> term_dist p = 0%nat -> p = Exited 1.
Proof.
  destruct p; cbn; intros Hp Hd; try discriminate; try congruence.
  destruct (Z.eqb_spec code 1); congruence.
Qed.

Lemma term_path_run (evs : list event) (s : state) :
  got_sigterm s = true ->
  (at_pc s = L108 \/ at_pc s = L110 -> death_reported s = false) ->
  term_rests (at_pc s) <> [] ->
  no_failure evs ->
  term_rests (at_pc (run evs s)) <> []
  /\ (forall r', In r' (term_rests (at_pc (run evs s))) ->
        exists r, (calls (run evs s) ++ r' = calls s ++ r)%list
                  /\ In r (term_rests (at_pc s)))
  /\ (term_dist (at_pc (run evs s)) <= term_dist (at_pc s) - runs evs)%nat.
Proof.
  intros Ht Hd Hp Hf.
  destruct (path_run term_rests term_dist
              (fun s => got_sigterm s = true
                        /\ (at_pc s = L108 \/ at_pc s = L110 ->
                            death_reported s = false))
              (fun e => negb (is_fail e))
              term_path_step evs s (conj Ht Hd) Hp) as (_ & H).
  - unfold no_failure in Hf. eapply Forall_impl; [|exact Hf].
    intros e He. cbn beta in *. now rewrite He.
  - exact H.
Qed.

(** The path to the exit of line 113, for a worker whose wait has reported
    the death of the postmaster. *)
Lemma death_path_step (s : state) (e : event) :
  death_reported s = true ->
  death_rests (at_pc s) <> [] ->
  true = true ->
  death_reported (step e s) = true
  /\ death_rests (at_pc (step e s)) <> []
  /\ (forall r', In r' (death_rests (at_pc (step e s))) ->
        exists r, (calls (step e s) ++ r' = calls s ++ r)%list
                  /\ In r (death_rests (at_pc s)))
  /\ (death_dist (at_pc (step e s))
        <= death_dist (at_pc s) - (if is_run e then 1 else 0))%nat.
Proof.
  unfold death_reported.
  by_cases s e; intros Hd Hp _;
    try discriminate; try congruence;
    repeat match goal with
           | |- _ /\ _ => split
           end;
    try discriminate; try lia; try extend_calls; auto.
Qed.

Lemma death_path_end (p : pc) :
  death_rests p <> [] -> death_dist p = 0%nat -> p = Exited 1.
Proof.
  destruct p; cbn; intros Hp Hd; try discriminate; try congruence.
  destruct (Z.eqb_spec code 1); congruence.
Qed.

Lemma some_element {A : Type} (l : list A) : l <> [] -> exists x, In x l.
Proof. destruct l as [|x l]; [congruence|]. intros _. exists x. now left. Qed.

Lemma wake_with_death (s : state) (timeout : bool) :
  at_pc s = L101 ->
  at_pc (step (Wake timeout true) s) = L108
  /\ death_reported (step (Wake timeout true) s) = true
  /\ calls (step (Wake timeout true) s)
       = (calls s ++ [WaitLatch wait_mask (wait_timeout s)])%list.
Proof.
  split_state s. cbn. intros ->. unfold death_reported.
  cbn. unfold wait_returns, wake_reasons.
  destruct latch, timeout; cbn; auto.
Qed.

(** C7: a wait that returns with the death of the postmaster among its
    reasons is followed by the reset of the latch and [proc_exit( 1 )] and
    by nothing else, whatever signals arrive meanwhile: no work cycle, no
    reload, no further wait; three statements later the worker has exited
    with status 1. *)
Theorem postmaster_death_exits_at_once
    (s : state) (timeout : bool) (evs : list event) :
  at_pc s = L101 ->
  let woken := step (Wake timeout true) s in
  let s' := run evs woken in
  at_pc woken = L108
  /\ death_reported woken = true
  /\ (exists rest,
        calls s' ++ rest
        = calls s ++ [WaitLatch wait_mask (wait_timeout s);
                      ResetLatch; proc_exit 1])%list
  /\ ((3 <= runs evs)%nat ->
        at_pc s' = Exited 1
        /\ calls s'
           = (calls s ++ [WaitLatch wait_mask (wait_timeout s);
                          ResetLatch; proc_exit 1])%list).
Proof.
  intros Hpc woken s'.
  destruct (wake_with_death s timeout Hpc) as (Hw & Hd & Hc).
  fold woken in Hw, Hd, Hc.
  assert (Hp : death_rests (at_pc woken) <> []) by (rewrite Hw; discriminate).
  destruct (path_run death_rests death_dist
              (fun s => death_reported s = true) (fun _ => true)
              death_path_step evs woken Hd Hp) as (_ & Hp' & Hr & Hdist).
  { apply Forall_forall. reflexivity. }
  fold s' in Hp', Hr, Hdist.
  assert (Hext : forall r', In r' (death_rests (at_pc s')) ->
            (calls s' ++ r'
             = calls s ++ [WaitLatch wait_mask (wait_timeout s);
                           ResetLatch; proc_exit 1])%list).
  { intros r' Hr'. destruct (Hr r' Hr') as (r0 & E & Hin).
    rewrite Hw in Hin. cbn in Hin. destruct Hin as [<-|[]].
    rewrite E, Hc, <- app_assoc. reflexivity. }
  rewrite Hw in Hdist. change (death_dist L108) with 3%nat in Hdist.
  split; [exact Hw|]. split; [exact Hd|]. split.
  - destruct (some_element _ Hp') as (r' & Hr'). exists r'. auto.
  - intros Hruns.
    assert (E : at_pc s' = Exited 1) by (apply death_path_end; [exact Hp'|lia]).
    split; [exact E|].
    rewrite <- (Hext []); [now rewrite app_nil_r|].
    rewrite E. cbn. auto.
Qed.

(** The same path with the test of line 118 decided. *)
Lemma reload_path_step (sighup : bool) (s : state) (e : event) :
  (got_sigterm s = true
   /\ (at_pc s = L108 \/ at_pc s = L110 -> death_reported s = false)
   /\ (at_pc s = L108 \/ at_pc s = L110 \/ at_pc s = L116 \/ at_pc s = L118 ->
       got_sighup s = sighup)) ->
  reload_rests sighup (at_pc s) <> [] ->
  keeps_reload sighup e = true ->
  (got_sigterm (step e s) = true
   /\ (at_pc (step e s) = L108 \/ at_pc (step e s) = L110 ->
       death_reported (step e s) = false)
   /\ (at_pc (step e s) = L108 \/ at_pc (step e s) = L110
       \/ at_pc (step e s) = L116 \/ at_pc (step e s) = L118 ->
       got_sighup (step e s) = sighup))
  /\ reload_rests sighup (at_pc (step e s)) <> []
  /\ (forall r', In r' (reload_rests sighup (at_pc (step e s))) ->
        exists r, (calls (step e s) ++ r' = calls s ++ r)%list
                  /\ In r (reload_rests sighup (at_pc s)))
  /\ (term_dist (at_pc (step e s))
        <= term_dist (at_pc s) - (if is_run e then 1 else 0))%nat.
Proof.
  unfold death_reported, keeps_reload.
  destruct sighup; by_cases s e; intros (Ht & Hd & Hh) Hp Hf;
    try discriminate; try congruence;
    try (rewrite Z.eqb_refl in *; cbn in * );
    try match goal with
        | H : _ \/ _ -> ?a = ?b |- _ =>
            assert (a = b) by (apply H; auto 6); discriminate
        end;
    repeat match goal with
           | |- _ /\ _ => split
           end;
    try discriminate; try lia; try extend_calls; auto;
    try (intros [?|[?|[?|?]]]; try discriminate; apply Hh; auto 6);
    try (intros [?|?]; discriminate).
Qed.

Lemma reload_path_end (sighup : bool) (p : pc) :
  reload_rests sighup p <> [] -> term_dist p = 0%nat -> p = Exited 1.
Proof.
  destruct sighup, p; cbn; intros Hp Hd; try discriminate; try congruence;
    destruct (Z.eqb_spec code 1); congruence.
Qed.

Lemma keeps_reload_all (sighup : bool) (evs : list event) :
  no_failure evs ->
  sighup = true \/ sighups evs = 0%nat ->
  Forall (fun e => keeps_reload sighup e = true) evs.
Proof.
  unfold no_failure, sighups, keeps_reload.
  induction evs as [|e evs IH]; intros Hf Hs; constructor.
  - inversion Hf as [|? ? He _]; subst. rewrite He. cbn.
    destruct Hs as [->|Hs]; [reflexivity|].
    cbn in Hs. destruct (is_sighup e); [discriminate|]. now destruct sighup.
  - inversion Hf; subst. apply IH; [assumption|].
    destruct Hs as [Hs|Hs]; [now left|]. right.
    cbn in Hs. destruct (is_sighup e); [discriminate|exact Hs].
Qed.

(** C2, as amended: a worker that finds [got_sigterm] set when its wait
    returns (the death of the postmaster not being reported), and whose
    unit of work does not fail, does not leave at once. It resets the latch,
    checks for interrupts, reloads the configuration if [got_sighup] is set
    when line 118 reads it, runs the work cycle of that turn of the loop,
    and only then, at the test of line 97, leaves the loop and exits with
    status 1. It makes no call outside that sequence: exactly one more work
    cycle, and no further wait. The reload is tied to the flag: it is made
    whenever [got_sighup] is set at the wake, and it is not made when the
    flag is clear at the wake and no SIGHUP is sent afterwards. *)
Theorem sigterm_at_wake_runs_one_more_cycle (s : state) (evs : list event) :
  at_pc s = L108 ->
  got_sigterm s = true ->
  death_reported s = false ->
  no_failure evs ->
  (exists reload rest,
      (reload = [] \/ reload = [ProcessConfigFile])
      /\ calls (run evs s) ++ rest
         = calls s ++ [ResetLatch; CHECK_FOR_INTERRUPTS] ++ reload
             ++ work_cycle ++ [proc_exit 1])%list
  /\ ((19 <= runs evs)%nat ->
        at_pc (run evs s) = Exited 1
        /\ exists reload,
             (reload = [] \/ reload = [ProcessConfigFile])
             /\ calls (run evs s)
                = calls s ++ [ResetLatch; CHECK_FOR_INTERRUPTS] ++ reload
                    ++ work_cycle ++ [proc_exit 1])%list
  /\ (got_sighup s = true \/ sighups evs = 0%nat ->
        (exists rest,
           calls (run evs s) ++ rest
           = calls s ++ [ResetLatch; CHECK_FOR_INTERRUPTS]
               ++ (if got_sighup s then [ProcessConfigFile] else [])
               ++ work_cycle ++ [proc_exit 1])%list
        /\ ((19 <= runs evs)%nat ->
              calls (run evs s)
              = calls s ++ [ResetLatch; CHECK_FOR_INTERRUPTS]
                  ++ (if got_sighup s then [ProcessConfigFile] else [])
                  ++ work_cycle ++ [proc_exit 1])%list).
Proof.
  intros Hpc Ht Hd Hf.
  assert (Hp : term_rests (at_pc s) <> []) by (rewrite Hpc; discriminate).
  destruct (term_path_run evs s Ht (fun _ => Hd) Hp Hf) as (Hp' & Hr & Hdist).
  rewrite Hpc in Hdist. change (term_dist L108) with 19%nat in Hdist.
  assert (Hext : forall r', In r' (term_rests (at_pc (run evs s))) ->
            exists reload,
              (reload = [] \/ reload = [ProcessConfigFile])
              /\ (calls (run evs s) ++ r'
                  = calls s ++ [ResetLatch; CHECK_FOR_INTERRUPTS] ++ reload
                      ++ work_cycle ++ [proc_exit 1])%list).
  { intros r' Hr'. destruct (Hr r' Hr') as (r0 & E & Hin).
    rewrite Hpc in Hin. cbn in Hin. destruct Hin as [<-|[<-|[]]].
    - exists []. split; [now left|]. rewrite E. reflexivity.
    - exists [ProcessConfigFile]. split; [now right|]. rewrite E. reflexivity. }
  split; [|split].
  - destruct (some_element _ Hp') as (r' & Hr').
    destruct (Hext r' Hr') as (reload & Hrel & E).
    exists reload, r'. auto.
  - intros Hruns.
    assert (E : at_pc (run evs s) = Exited 1)
      by (apply term_path_end; [exact Hp'|lia]).
    split; [exact E|].
    destruct (Hext []) as (reload & Hrel & E').
    + rewrite E. cbn. auto.
    + exists reload. split; [exact Hrel|]. now rewrite app_nil_r in E'.
  - intros Hs.
    assert (Hk : Forall (fun e => keeps_reload (got_sighup s) e = true) evs).
    { apply keeps_reload_all; [exact Hf|].
      destruct Hs as [Hs|Hs]; [left; exact Hs | right; exact Hs]. }
    assert (Hq : reload_rests (got_sighup s) (at_pc s) <> []).
    { rewrite Hpc. destruct (got_sighup s); discriminate. }
    destruct (path_run (reload_rests (got_sighup s)) term_dist
                (fun s0 =>
                   got_sigterm s0 = true
                   /\ (at_pc s0 = L108 \/ at_pc s0 = L110 ->
                       death_reported s0 = false)
                   /\ (at_pc s0 = L108 \/ at_pc s0 = L110
                       \/ at_pc s0 = L116 \/ at_pc s0 = L118 ->
                       got_sighup s0 = got_sighup s))
                (keeps_reload (got_sighup s))
                (reload_path_step (got_sighup s)) evs s
                (conj Ht (conj (fun _ => Hd) (fun _ => eq_refl))) Hq Hk)
      as (_ & Hq' & Hr2 & Hdist2).
    rewrite Hpc in Hdist2. change (term_dist L108) with 19%nat in Hdist2.
    assert (Hext2 :
      forall r', In r' (reload_rests (got_sighup s) (at_pc (run evs s))) ->
        (calls (run evs s) ++ r'
         = calls s ++ [ResetLatch; CHECK_FOR_INTERRUPTS]
             ++ (if got_sighup s then [ProcessConfigFile] else [])
             ++ work_cycle ++ [proc_exit 1])%list).
    { intros r' Hr'. destruct (Hr2 r' Hr') as (r0 & E & Hin).
      rewrite Hpc in Hin. rewrite E. clear - Hin.
      destruct (got_sighup s); cbn in Hin; destruct Hin as [<-|[]];
        reflexivity. }
    split.
    + destruct (some_element _ Hq') as (r' & Hr'). exists r'. auto.
    + intros Hruns.
      assert (E : at_pc (run evs s) = Exited 1)
        by (apply (reload_path_end (got_sighup s)); [exact Hq'|lia]).
      rewrite <- (Hext2 []); [now rewrite app_nil_r|].
      rewrite E. destruct (got_sighup s); cbn; auto.
Qed.

Lemma cycle_is_on_term_path (p : pc) :
  in_work_cycle p = true ->
  term_rests p = [(rest_of_cycle p ++ [proc_exit 1])%list]
  /\ (term_dist p <= 13)%nat.
Proof. destruct p; cbn; intros H; try discriminate; split; auto; lia. Qed.

(** C6: a SIGTERM that arrives while a work cycle is running does not
    interrupt it. The handler sets [got_sigterm] and returns to the
    statement that was running; the worker makes every call the cycle still
    had to make, in order, and then, at the test of line 97, leaves the loop
    and exits: no call of the cycle is skipped and none is added. *)
Theorem sigterm_during_cycle_completes_it (s : state) (evs : list event) :
  reachable s ->
  in_work_cycle (at_pc s) = true ->
  no_failure evs ->
  at_pc (step (Sig SIGTERM) s) = at_pc s
  /\ calls (step (Sig SIGTERM) s) = calls s
  /\ got_sigterm (step (Sig SIGTERM) s) = true
  /\ (exists rest,
        calls (run evs (step (Sig SIGTERM) s)) ++ rest
        = calls s ++ rest_of_cycle (at_pc s) ++ [proc_exit 1])%list
  /\ ((13 <= runs evs)%nat ->
        at_pc (run evs (step (Sig SIGTERM) s)) = Exited 1
        /\ calls (run evs (step (Sig SIGTERM) s))
           = (calls s ++ rest_of_cycle (at_pc s) ++ [proc_exit 1])%list).
Proof.
  intros Hreach Hin Hf.
  destruct (signal_keeps_control s SIGTERM) as (Hpc & Hcalls & _).
  assert (Ht : got_sigterm (step (Sig SIGTERM) s) = true).
  { pose proof (blocked_only_at_setup s Hreach) as Hb.
    revert Hin Hb. split_state s. cbn. destruct p; cbn; try discriminate;
      destruct blocked; cbn; auto;
      intros _ Hb; destruct Hb as ([?|[?|?]] & _); auto; discriminate. }
  destruct (cycle_is_on_term_path (at_pc s) Hin) as (Hrests & Hd13).
  set (s1 := step (Sig SIGTERM) s) in *.
  assert (Hp : term_rests (at_pc s1) <> [])
    by (rewrite Hpc, Hrests; discriminate).
  assert (Hnd : at_pc s1 = L108 \/ at_pc s1 = L110 -> death_reported s1 = false).
  { rewrite Hpc. intros [E|E]; rewrite E in Hin; discriminate. }
  destruct (term_path_run evs s1 Ht Hnd Hp Hf) as (Hp' & Hr & Hdist).
  assert (Hext : forall r', In r' (term_rests (at_pc (run evs s1))) ->
            (calls (run evs s1) ++ r'
             = calls s ++ rest_of_cycle (at_pc s) ++ [proc_exit 1])%list).
  { intros r' Hr'. destruct (Hr r' Hr') as (r0 & E & Hin0).
    rewrite Hpc, Hrests in Hin0. cbn in Hin0. destruct Hin0 as [<-|[]].
    now rewrite E, Hcalls. }
  split; [exact Hpc|]. split; [exact Hcalls|]. split; [exact Ht|]. split.
  - destruct (some_element _ Hp') as (r' & Hr'). exists r'. auto.
  - intros Hruns. rewrite Hpc in Hdist.
    assert (E : at_pc (run evs s1) = Exited 1)
      by (apply term_path_end; [exact Hp'|lia]).
    split; [exact E|].
    rewrite <- (Hext []); [now rewrite app_nil_r|].
    rewrite E. cbn. auto.
Qed.

(** *** Exits *)

Lemma exit_invariant (s : state) :
  reachable s ->
  (at_pc s = L139 -> got_sigterm s = true)
  /\ (at_pc s = L113 -> death_reported s = true)
  /\ (forall code, at_pc s = Exited code ->
        code = 1
        /\ (exists before, calls s = (before ++ [proc_exit 1])%list)
        /\ (got_sigterm s = true \/ death_reported s = true)).
Proof.
  revert s.
  apply (reachable_ind (fun s =>
    (at_pc s = L139 -> got_sigterm s = true)
    /\ (at_pc s = L113 -> death_reported s = true)
    /\ (forall code, at_pc s = Exited code ->
          code = 1
          /\ (exists before, calls s = (before ++ [proc_exit 1])%list)
          /\ (got_sigterm s = true \/ death_reported s = true)))).
  - intros. cbn. repeat split; intros; discriminate.
  - intros s e (H139 & H113 & Hex). unfold death_reported in *.
    by_cases s e;
      (split; [|split]); try (intros; discriminate); auto;
      try (intros c Hc; injection Hc as <-;
           (split; [reflexivity|]); (split; [eexists; reflexivity|]);
           auto);
      try (intros _; now rewrite Heqb).
Qed.

(** C10: whenever the worker has exited through [proc_exit], the status is
    1, be it after a request to terminate (the exit of line 139, reached
    with [got_sigterm] set) or after the death of the postmaster (the exit
    of line 113, reached with that reason in [rc]): the two exits make the
    same call, [proc_exit( 1 )]. *)
Theorem every_exit_has_status_1 (s : state) (code : Z) :
  reachable s ->
  at_pc s = Exited code ->
  code = 1
  /\ (exists before, calls s = (before ++ [proc_exit 1])%list)
  /\ (got_sigterm s = true \/ death_reported s = true)
  /\ stmt_at L113 = SExit 1
  /\ stmt_at L139 = SExit 1.
Proof.
  intros Hr Hpc.
  destruct (exit_invariant s Hr) as (_ & _ & H).
  destruct (H code Hpc) as (Hc & Hcalls & Hwhy).
  repeat split; auto.
Qed.

(** *** The unit of work *)

Lemma stopped_absorbs (e : event) (s : state) :
  stopped s = true ->
  at_pc (step e s) = at_pc s /\ calls (step e s) = calls s.
Proof. by_cases s e; intros; try discriminate; auto. Qed.

Lemma stopped_forever (evs : list event) :
  forall s, stopped s = true ->
    at_pc (run evs s) = at_pc s /\ calls (run evs s) = calls s.
Proof.
  induction evs as [|e evs IH]; intros s Hs; [auto|].
  rewrite run_cons.
  destruct (stopped_absorbs e s Hs) as (Hp & Hc).
  destruct (IH (step e s)) as (Hp' & Hc').
  - unfold stopped in *. now rewrite Hp.
  - split; congruence.
Qed.

Lemma failure_leaves_main (s : state) :
  at_pc s = L130 \/ at_pc s = L71 ->
  at_pc (step Fail s) = Raised /\ calls (step Fail s) = calls s.
Proof. split_state s. cbn. intros [->| ->]; cbn; auto. Qed.

(** One turn of the loop on a timeout, nothing pending. *)
Lemma timeout_turn_runs (s : state) :
  at_pc s = L101 -> got_sigterm s = false -> got_sighup s = false ->
  at_pc (run timeout_turn s) = L101
  /\ got_sigterm (run timeout_turn s) = false
  /\ got_sighup (run timeout_turn s) = false
  /\ cachemgr_sleep_time (run timeout_turn s) = cachemgr_sleep_time s
  /\ calls (run timeout_turn s) = (calls s ++ turn_calls (wait_timeout s))%list.
Proof.
  split_state s. cbn [at_pc got_sigterm got_sighup]. intros -> -> ->.
  unfold wait_timeout.
  destruct latch; cbn; repeat split; rewrite <- ?app_assoc; reflexivity.
Qed.

Lemma timeout_turns_run (n : nat) :
  forall s,
    at_pc s = L101 -> got_sigterm s = false -> got_sighup s = false ->
    at_pc (run (timeout_turns n) s) = L101
    /\ got_sigterm (run (timeout_turns n) s) = false
    /\ calls (run (timeout_turns n) s)
       = (calls s ++ turns_calls (wait_timeout s) n)%list.
Proof.
  induction n as [|n IH]; intros s Hpc Ht Hh.
  - split; [exact Hpc|]. split; [exact Ht|].
    change (run (timeout_turns 0) s) with s.
    change (turns_calls (wait_timeout s) 0) with (@nil Call).
    symmetry. apply app_nil_r.
  - change (timeout_turns (S n)) with (timeout_turn ++ timeout_turns n)%list.
    change (turns_calls (wait_timeout s) (S n))
      with (turn_calls (wait_timeout s) ++ turns_calls (wait_timeout s) n)%list.
    rewrite run_app.
    destruct (timeout_turn_runs s Hpc Ht Hh) as (Hpc1 & Ht1 & Hh1 & Hw1 & Hc1).
    destruct (IH (run timeout_turn s) Hpc1 Ht1 Hh1) as (Hpc2 & Ht2 & Hc2).
    split; [exact Hpc2|]. split; [exact Ht2|].
    rewrite Hc2, Hc1, <- app_assoc. unfold wait_timeout. rewrite Hw1.
    reflexivity.
Qed.

Lemma loop_live_step (s : state) (e : event) :
  loop_live s -> quiet e = true -> loop_live (step e s).
Proof.
  unfold loop_live, death_reported.
  by_cases s e; intros (Hin & Ht & Hd) Hq; try discriminate;
    repeat split; auto; try (intros [?|?]; discriminate);
    try (intros _; now rewrite Heqb);
    try match goal with
        | H : _ \/ _ -> ?a = ?b |- _ =>
            assert (a = b) by (apply H; auto); discriminate
        end.
Qed.

Lemma loop_live_run (evs : list event) :
  forall s, loop_live s -> Forall (fun e => quiet e = true) evs ->
            loop_live (run evs s).
Proof.
  induction evs as [|e evs IH]; intros s Hl Hq; [exact Hl|].
  inversion Hq; subst. rewrite run_cons.
  apply IH; [apply loop_live_step|]; auto.
Qed.

(** C4, as amended. The loop has no handler around the unit of work: a unit
    of work that fails takes the worker out of [cachemgr_main] there and
    then, for good, without any of the calls that end the cycle. While no
    unit of work fails, nothing asks the worker to terminate and the
    postmaster lives, the worker stays in the loop, idle or working; woken
    [n] times by its timeout it runs [n] work cycles, each one ending with
    its release calls, and is idle again. *)
Theorem work_failure_ends_loop (s : state) (evs : list event) (n : nat) :
  (at_pc s = L130 ->
     at_pc (run evs (step Fail s)) = Raised
     /\ stopped (run evs (step Fail s)) = true
     /\ calls (run evs (step Fail s)) = calls s)
  /\ (loop_live s -> Forall (fun e => quiet e = true) evs ->
        in_loop (at_pc (run evs s)) = true /\ stopped (run evs s) = false)
  /\ (at_pc s = L101 -> got_sigterm s = false -> got_sighup s = false ->
        at_pc (run (timeout_turns n) s) = L101
        /\ calls (run (timeout_turns n) s)
           = (calls s ++ turns_calls (wait_timeout s) n)%list).
Proof.
  split; [|split].
  - intros Hpc.
    destruct (failure_leaves_main s (or_introl Hpc)) as (Hp & Hc).
    destruct (stopped_forever evs (step Fail s)) as (Hp' & Hc').
    { unfold stopped. now rewrite Hp. }
    unfold stopped. rewrite Hp', Hp, Hc', Hc. auto.
  - intros Hl Hq.
    destruct (loop_live_run evs s Hl Hq) as (Hin & _).
    split; [exact Hin|].
    unfold stopped. destruct (at_pc (run evs s)); try reflexivity; discriminate.
  - intros Hpc Ht Hh.
    destruct (timeout_turns_run n s Hpc Ht Hh) as (H1 & _ & H2).
    split; [exact H1|exact H2].
Qed.

(** *** The timeout of the wait *)

Lemma sleep_time_in_range (s : state) :
  reachable s -> 1 <= cachemgr_sleep_time s <= Init.INT_MAX.
Proof.
  revert s.
  apply (reachable_ind (fun s => 1 <= cachemgr_sleep_time s <= Init.INT_MAX)).
  - intros; cbn; auto.
  - intros s e IH. by_cases s e; auto;
      unfold Init.reload_int; cbn;
      destruct (Init.lookup "cachemgr.sleep_time" file) as [v|];
      [destruct (Init.in_range Init.sleep_time_guc v) eqn:Er|];
      cbn; auto; unfold Init.in_range in *; cbn in *;
      unfold Init.INT_MAX in *; lia.
Qed.

(** What every returning wait was called with: the three wake events, and
    a thousand times the sleep time as its timeout. *)
Lemma wait_timeout_is_sleep_time_times_1000 (s : state) (e : event) :
  reachable s ->
  at_pc s = L101 ->
  at_pc (step e s) = L108 ->
  calls (step e s)
  = (calls s ++ [WaitLatch 25 (cachemgr_sleep_time s * 1000)])%list.
Proof.
  intros Hr Hpc Hpc'.
  pose proof (sleep_time_in_range s Hr) as Hs.
  assert (Hw : wait_timeout s = cachemgr_sleep_time s * 1000).
  { unfold wait_timeout, to_long, Init.INT_MAX in *.
    change (2 ^ 63) with 9223372036854775808.
    change (2 ^ 64) with 18446744073709551616.
    rewrite Z.mod_small; lia. }
  revert Hpc Hpc' Hw. unfold wait_timeout.
  split_state s. cbn [at_pc cachemgr_sleep_time calls]. intros -> Hpc' Hw.
  split_event e; cbn in *; unfold wait_returns, wake_reasons in *; cbn in *;
    split_bools; cbn in *; try discriminate;
    unfold wait_timeout; cbn; rewrite ?Hw; reflexivity.
Qed.

(** *** The latch *)




(** A step only adds calls. *)
Lemma calls_grow (s : state) (e : event) :
  exists added, calls (step e s) = (calls s ++ added)%list
                /\ (latch_is_set s = true -> latch_is_set (step e s) = false ->
                    added = [ResetLatch]).
Proof.
  by_cases s e;
    first [ exists []; split; [now rewrite app_nil_r | intros; congruence]
          | eexists; split; [reflexivity | intros; try congruence; auto] ].
Qed.





(** *** The start-up *)

Lemma startup_invariant (s : state) :
  reachable s ->
  match startup_index (at_pc s) with
  | Some k => calls s = firstn k startup_calls
  | None => (exists rest, calls s = (startup_calls ++ rest)%list)
            \/ (at_pc s = Raised /\ calls s = firstn 9 startup_calls)
  end.
Proof.
  revert s.
  apply (reachable_ind (fun s =>
    match startup_index (at_pc s) with
    | Some k => calls s = firstn k startup_calls
    | None => (exists rest, calls s = (startup_calls ++ rest)%list)
              \/ (at_pc s = Raised /\ calls s = firstn 9 startup_calls)
    end)).
  - intros. reflexivity.
  - intros s e IH.
    by_cases s e;
      first
        [ exact IH
        | subst cs; reflexivity
        | subst cs; left; exists []; reflexivity
        | right; split; [reflexivity | exact IH]
        | destruct IH as [[rest E]|[E1 E2]];
          [ left; eexists; rewrite E, <- ?app_assoc; reflexivity
          | first [ discriminate E1 | right; split; [reflexivity | exact E2] ] ] ].
Qed.

(** X6: the start-up is done in the order of lines 87-95. What a worker that
    is still in its start-up has called is the beginning of
    [startup_calls]; what a worker in its loop, or past it, has called
    begins with all of [startup_calls]: both handlers installed, signals
    unblocked, the connection to the database made and one initialisation
    pass run, each once and in that order, before the first wait. *)
Theorem startup_comes_first (s : state) :
  reachable s ->
  (forall k, startup_index (at_pc s) = Some k ->
     calls s = firstn k startup_calls)
  /\ (startup_index (at_pc s) = None -> at_pc s <> Raised ->
      exists rest, calls s = (startup_calls ++ rest)%list).
Proof.
  intros Hr. pose proof (startup_invariant s Hr) as H.
  split.
  - intros k Hk. rewrite Hk in H. exact H.
  - intros Hn Hnr. rewrite Hn in H. destruct H as [H|[H _]]; [exact H|].
    contradiction.
Qed.

(** *** A request to terminate that comes before the loop *)

Lemma exit_path_step (s : state) (e : event) :
  got_sigterm s = true ->
  exit_rests (at_pc s) <> [] ->
  true = true ->
  got_sigterm (step e s) = true
  /\ exit_rests (at_pc (step e s)) <> []
  /\ (forall r', In r' (exit_rests (at_pc (step e s))) ->
        exists r, (calls (step e s) ++ r' = calls s ++ r)%list
                  /\ In r (exit_rests (at_pc s)))
  /\ (exit_dist (at_pc (step e s))
        <= exit_dist (at_pc s) - (if is_run e then 1 else 0))%nat.
Proof.
  by_cases s e; intros Ht Hp _;
    try discriminate; try congruence;
    repeat match goal with
           | |- _ /\ _ => split
           end;
    try discriminate; try lia; try extend_calls; auto.
Qed.

Lemma exit_path_end (p : pc) :
  exit_rests p <> [] -> exit_dist p = 0%nat -> p = Exited 1.
Proof.
  destruct p; cbn; intros Hp Hd; try discriminate; try congruence.
  destruct (Z.eqb_spec code 1); congruence.
Qed.

(** X7: a worker that reaches the test of line 97 with [got_sigterm] set
    never waits and runs no work cycle of the loop: whatever happens next,
    its only further call is [proc_exit( 1 )], made two statements later. *)
Theorem sigterm_before_loop_never_waits (s : state) (evs : list event) :
  at_pc s = L97 ->
  got_sigterm s = true ->
  (exists rest, calls (run evs s) ++ rest = calls s ++ [proc_exit 1])%list
  /\ ((2 <= runs evs)%nat ->
        at_pc (run evs s) = Exited 1
        /\ calls (run evs s) = (calls s ++ [proc_exit 1])%list).
Proof.
  intros Hpc Ht.
  assert (Hp : exit_rests (at_pc s) <> []) by (rewrite Hpc; discriminate).
  destruct (path_run exit_rests exit_dist
              (fun s => got_sigterm s = true) (fun _ => true)
              exit_path_step evs s Ht Hp) as (_ & Hp' & Hr & Hdist).
  { apply Forall_forall. reflexivity. }
  rewrite Hpc in Hdist. change (exit_dist L97) with 2%nat in Hdist.
  assert (Hext : forall r', In r' (exit_rests (at_pc (run evs s))) ->
            (calls (run evs s) ++ r' = calls s ++ [proc_exit 1])%list).
  { intros r' Hr'. destruct (Hr r' Hr') as (r0 & E & Hin).
    rewrite Hpc in Hin. cbn in Hin. destruct Hin as [<-|[]]. exact E. }
  split.
  - destruct (some_element _ Hp') as (r' & Hr'). exists r'. auto.
  - intros Hruns.
    assert (E : at_pc (run evs s) = Exited 1)
      by (apply exit_path_end; [exact Hp'|lia]).
    split; [exact E|].
    rewrite <- (Hext []); [now rewrite app_nil_r|].
    rewrite E. cbn. auto.
Qed.

(** *** Reloads of the configuration *)

Ltac count_up :=
  unfold count in *; rewrite ?filter_app, ?length_app in *; cbn in *.

Lemma reload_step (s : state) (e : event) :
  (count is_reload (calls (step e s)) + reload_due (step e s)
   <= count is_reload (calls s) + reload_due s + b2n (is_sighup e))%nat.
Proof.
  split_state s. destruct hup, ph, blocked; split_event e; destruct p;
    cbn; unfold wait_returns, wake_reasons; cbn; split_bools; cbn;
    count_up; lia.
Qed.

Lemma reload_run (evs : list event) :
  forall s,
    (count is_reload (calls (run evs s)) + reload_due (run evs s)
     <= count is_reload (calls s) + reload_due s + sighups evs)%nat.
Proof.
  induction evs as [|e evs IH]; intros s.
  - unfold sighups. cbn [run fold_left filter List.length]. lia.
  - rewrite run_cons. pose proof (IH (step e s)) as H1.
    pose proof (reload_step s e) as H2.
    unfold sighups in *. cbn [filter]. destruct (is_sighup e); cbn in *; lia.
Qed.

(** X8: the configuration is reloaded only in answer to a SIGHUP, and SIGHUP
    signals that come close together share one reload: in every run of the
    worker the calls of [ProcessConfigFile] are no more than the SIGHUP
    signals sent. *)
Theorem reloads_answer_sighups
    (sleep_time : Z) (file : Init.ConfigFile) (evs : list event) :
  (count is_reload (calls (run evs (start sleep_time file))) <= sighups evs)%nat.
Proof.
  pose proof (reload_run evs (start sleep_time file)) as H.
  cbn in H. lia.
Qed.

Lemma calls_only_grow (evs : list event) :
  forall s, exists done, calls (run evs s) = (calls s ++ done)%list.
Proof.
  induction evs as [|e evs IH]; intros s.
  - exists []. now rewrite app_nil_r.
  - rewrite run_cons. destruct (IH (step e s)) as (d & Hd).
    destruct (calls_grow s e) as (a & Ha & _).
    exists (a ++ d)%list. now rewrite Hd, Ha, app_assoc.
Qed.

Lemma sleep_time_step (s : state) (e : event) :
  exists added,
    calls (step e s) = (calls s ++ added)%list
    /\ (cachemgr_sleep_time (step e s) = cachemgr_sleep_time s
        \/ (added = [ProcessConfigFile] /\ e = Run /\ at_pc s = L121)).
Proof.
  by_cases s e;
    first [ exists []; split; [now rewrite app_nil_r | now left]
          | eexists; split; [reflexivity | now left]
          | eexists; split; [reflexivity | right; auto] ].
Qed.

(** X9: the sleep time changes nowhere but at line 121. However the
    configuration file is edited and whatever signals arrive, as long as no
    [ProcessConfigFile] has been called since, the sleep time, and with it
    the timeout of the waits, is what it was. *)
Theorem sleep_time_waits_for_reload
    (s : state) (evs : list event) (done : list Call) :
  calls (run evs s) = (calls s ++ done)%list ->
  ~ In ProcessConfigFile done ->
  cachemgr_sleep_time (run evs s) = cachemgr_sleep_time s
  /\ wait_timeout (run evs s) = wait_timeout s.
Proof.
  intros Hc Hn.
  assert (E : cachemgr_sleep_time (run evs s) = cachemgr_sleep_time s).
  { revert s done Hc Hn.
    induction evs as [|e evs IH]; intros s done Hc Hn; [reflexivity|].
    rewrite run_cons in *.
    destruct (sleep_time_step s e) as (added & Ha & Hs).
    destruct (calls_only_grow evs (step e s)) as (done' & Hd').
    assert (Ed : done = (added ++ done')%list).
    { apply (app_inv_head (calls s)). rewrite <- Hc, Hd', Ha, app_assoc.
      reflexivity. }
    rewrite (IH (step e s) done' Hd').
    - destruct Hs as [Hs|(Hs & _)]; [exact Hs|].
      exfalso. apply Hn. rewrite Ed, Hs. now left.
    - intros Hin. apply Hn. rewrite Ed. apply in_or_app. now right. }
  split; [exact E|]. unfold wait_timeout. now rewrite E.
Qed.

(** *** One turn of the loop *)

(** X10: whatever makes the wait return, short of the death of the
    postmaster (the timeout, a latch that was set, a SIGHUP), the turn of
    the loop it starts runs one full work cycle: the latch is reset,
    interrupts are checked, the configuration is reloaded if and only if
    [got_sighup] is set, which that clears, and lines 124-136 run; the
    worker is then at its next wait. *)
Theorem wake_runs_one_cycle (s : state) (e : event) :
  at_pc s = L101 ->
  got_sigterm s = false ->
  at_pc (step e s) = L108 ->
  death_reported (step e s) = false ->
  at_pc (run (repeat Run (turn_length (got_sighup s))) (step e s)) = L101
  /\ got_sighup (run (repeat Run (turn_length (got_sighup s))) (step e s)) = false
  /\ calls (run (repeat Run (turn_length (got_sighup s))) (step e s))
     = (calls s
          ++ [WaitLatch wait_mask (wait_timeout s); ResetLatch;
              CHECK_FOR_INTERRUPTS]
          ++ (if got_sighup s then [ProcessConfigFile] else [])
          ++ work_cycle)%list
  /\ cachemgr_sleep_time (run (repeat Run (turn_length (got_sighup s))) (step e s))
     = (if got_sighup s
        then Init.reload_int (config_file s) Init.sleep_time_guc
               (cachemgr_sleep_time s)
        else cachemgr_sleep_time s).
Proof.
  split_state s. cbn [at_pc got_sigterm got_sighup calls config_file
                        cachemgr_sleep_time]. intros -> ->.
  unfold wait_timeout, death_reported.
  split_event e; cbn; unfold wait_returns, wake_reasons; cbn;
    try discriminate;
    destruct blocked, latch; try destruct timeout; try destruct death; cbn;
    try discriminate;
    intros _ _; destruct hup; cbn; repeat split;
    rewrite <- ?app_assoc; reflexivity.
Qed.

(** *** What is open, and when *)

Lemma balance_invariant (s : state) :
  reachable s ->
  count is_start (calls s)
  = (count is_commit (calls s) + b2n (in_transaction (at_pc s)))%nat
  /\ count is_connect (calls s)
     = (count is_finish (calls s) + b2n (in_spi (at_pc s)))%nat
  /\ count is_push (calls s)
     = (count is_pop (calls s) + b2n (in_snapshot (at_pc s)))%nat.
Proof.
  revert s.
  apply (reachable_ind (fun s =>
    count is_start (calls s)
    = (count is_commit (calls s) + b2n (in_transaction (at_pc s)))%nat
    /\ count is_connect (calls s)
       = (count is_finish (calls s) + b2n (in_spi (at_pc s)))%nat
    /\ count is_push (calls s)
       = (count is_pop (calls s) + b2n (in_snapshot (at_pc s)))%nat)).
  - intros. cbn. auto.
  - intros s e (H1 & H2 & H3). by_cases s e; count_up; lia.
Qed.

(** X11: the worker holds nothing while it sleeps. Transactions, SPI
    connections and snapshots are opened and closed in pairs, at most one of
    each being open at any time; at the wait of line 101, and after either
    exit, every transaction started has been committed, every SPI
    connection finished and every snapshot popped. One of each is left open
    only where a unit of work has failed. *)
Theorem nothing_held_while_waiting (s : state) :
  reachable s ->
  (count is_commit (calls s) <= count is_start (calls s)
   <= count is_commit (calls s) + 1)%nat
  /\ (count is_finish (calls s) <= count is_connect (calls s)
      <= count is_finish (calls s) + 1)%nat
  /\ (count is_pop (calls s) <= count is_push (calls s)
      <= count is_pop (calls s) + 1)%nat
  /\ (at_pc s = L101 \/ (exists code, at_pc s = Exited code) ->
      count is_start (calls s) = count is_commit (calls s)
      /\ count is_connect (calls s) = count is_finish (calls s)
      /\ count is_push (calls s) = count is_pop (calls s))
  /\ (at_pc s = Raised ->
      count is_start (calls s) = S (count is_commit (calls s))
      /\ count is_connect (calls s) = S (count is_finish (calls s))
      /\ count is_push (calls s) = S (count is_pop (calls s))).
Proof.
  intros Hr. destruct (balance_invariant s Hr) as (H1 & H2 & H3).
  assert (B : forall b, (b2n b <= 1)%nat) by (intros [|]; cbn; lia).
  pose proof (B (in_transaction (at_pc s))).
  pose proof (B (in_spi (at_pc s))).
  pose proof (B (in_snapshot (at_pc s))).
  split; [lia|]. split; [lia|]. split; [lia|]. split.
  - intros [E|(c & E)]; rewrite E in H1, H2, H3; cbn in H1, H2, H3; lia.
  - intros E. rewrite E in H1, H2, H3. cbn in H1, H2, H3. lia.
Qed.

(** *** Waits and work cycles *)

Lemma pace_invariant (s : state) :
  reachable s ->
  if stopped s
  then (count is_report_stat (calls s) <= count is_wait (calls s)
        <= count is_report_stat (calls s) + 1)%nat
  else count is_wait (calls s)
       = (count is_report_stat (calls s) + b2n (wait_ahead (at_pc s)))%nat.
Proof.
  revert s.
  apply (reachable_ind (fun s =>
    if stopped s
    then (count is_report_stat (calls s) <= count is_wait (calls s)
          <= count is_report_stat (calls s) + 1)%nat
    else count is_wait (calls s)
         = (count is_report_stat (calls s) + b2n (wait_ahead (at_pc s)))%nat)).
  - intros. cbn. auto.
  - intros s e IH. by_cases s e; count_up; lia.
Qed.

(** X12: the loop does not spin. Every work cycle of the loop is paid for by
    a wait of its own: the waits that have returned are as many as the work
    cycles that have reported their statistics, or one more, and exactly as
    many whenever the worker is back at the wait. *)
Theorem one_wait_per_cycle (s : state) :
  reachable s ->
  (count is_report_stat (calls s) <= count is_wait (calls s)
   <= count is_report_stat (calls s) + 1)%nat
  /\ (at_pc s = L101 ->
      count is_wait (calls s) = count is_report_stat (calls s)).
Proof.
  intros Hr. pose proof (pace_invariant s Hr) as H.
  split.
  - destruct (stopped s); [exact H|].
    destruct (wait_ahead (at_pc s)); cbn in H; lia.
  - intros Hpc. unfold stopped in H. rewrite Hpc in H. cbn in H. lia.
Qed.

(** *** Signals *)

(** Signals coalesce and do not depend on their order: a signal sent
    twice leaves the worker as it is after the first, and two signals leave
    it the same whichever came first. *)
Lemma signals_coalesce (s : state) (a b : Signal) :
  step (Sig a) (step (Sig a) s) = step (Sig a) s
  /\ step (Sig a) (step (Sig b) s) = step (Sig b) (step (Sig a) s).
Proof.
  split_state s. destruct a, b, blocked, p; cbn; split; reflexivity.
Qed.

(** *** The width of [long] *)

(** X5: every wait that returns was called with the three wake events and
    with [cachemgr_sleep_time * 1000L] as its timeout. Where [long] has 64
    bits, the width the worker is run at here, that product is the exact
    one for every sleep time the setting admits. Where [long] has 32 bits
    it is the exact one only up to a sleep time of 2147483: from 2147484
    on, which the setting admits as well, the product wraps. *)
Theorem wait_timeout_fits_long (s : state) (e : event) :
  reachable s ->
  at_pc s = L101 ->
  at_pc (step e s) = L108 ->
  calls (step e s)
  = (calls s ++ [WaitLatch 25 (wrap_long 64 (cachemgr_sleep_time s * 1000))])%list
  /\ wrap_long 64 (cachemgr_sleep_time s * 1000) = cachemgr_sleep_time s * 1000
  /\ 1 <= cachemgr_sleep_time s <= Init.INT_MAX
  /\ (wrap_long 32 (cachemgr_sleep_time s * 1000) = cachemgr_sleep_time s * 1000
      <-> cachemgr_sleep_time s <= 2147483).
Proof.
  intros Hr Hpc Hpc'.
  pose proof (sleep_time_in_range s Hr) as Hs.
  pose proof (wait_timeout_is_sleep_time_times_1000 s e Hr Hpc Hpc') as Hc.
  assert (H64 : wrap_long 64 (cachemgr_sleep_time s * 1000)
                = cachemgr_sleep_time s * 1000).
  { unfold wrap_long, Init.INT_MAX in *.
    change (2 ^ (64 - 1)) with 9223372036854775808.
    change (2 ^ 64) with 18446744073709551616.
    rewrite Z.mod_small; lia. }
  split; [now rewrite H64|]. split; [exact H64|]. split; [exact Hs|].
  unfold wrap_long, Init.INT_MAX in *.
  change (2 ^ (32 - 1)) with 2147483648.
  change (2 ^ 32) with 4294967296.
  split.
  - intros E.
    pose proof (Z.mod_pos_bound (cachemgr_sleep_time s * 1000 + 2147483648)
                  4294967296 ltac:(lia)) as Hb.
    lia.
  - intros Hle. rewrite Z.mod_small; lia.
Qed.

End WorkerFacts.

(** ** The worker on concrete runs *)

Lemma first_wait_reachable : Worker.reachable Worker.first_wait.
Proof.
  exists 10, [], Worker.to_first_wait.
  split; [unfold Init.INT_MAX; lia | reflexivity].
Defined.

Lemma woken_by_sigterm_reachable : Worker.reachable Worker.woken_by_sigterm.
Proof. apply (reachable_run _ _ first_wait_reachable). Defined.

Lemma first_unit_of_work_reachable : Worker.reachable Worker.first_unit_of_work.
Proof. apply (reachable_run _ _ first_wait_reachable). Defined.

Lemma runs_do_not_fail (n : nat) : Worker.no_failure (repeat Worker.Run n).
Proof. induction n as [|n IH]; constructor; [reflexivity | exact IH]. Defined.

(** C2, as stated, fails: the worker with the default settings, woken from
    its first wait by a SIGTERM, is at line 108 with [got_sigterm] set, and
    the statements it runs from there start a transaction: the work cycle of
    lines 124-136 is run before the exit. *)
Lemma sigterm_at_wake_still_works :
  ~ Worker.termination_at_wake_skips_work.
Proof.
  intros H.
  apply (H Worker.woken_by_sigterm (repeat Worker.Run 19)
           ([Worker.ResetLatch; Worker.CHECK_FOR_INTERRUPTS]
              ++ Worker.work_cycle ++ [Worker.proc_exit 1])%list
           woken_by_sigterm_reachable).
  - vm_compute. reflexivity.
  - vm_compute. reflexivity.
  - vm_compute. reflexivity.
  - cbn. auto 10.
Qed.

Lemma sigterm_at_wake_runs_one_more_cycle_witness :
  Worker.calls (Worker.run (repeat Worker.Run 19) Worker.woken_by_sigterm)
  = (Worker.calls Worker.woken_by_sigterm
       ++ [Worker.ResetLatch; Worker.CHECK_FOR_INTERRUPTS]
       ++ Worker.work_cycle ++ [Worker.proc_exit 1])%list
  /\ Worker.calls (Worker.run (repeat Worker.Run 19) Worker.woken_with_both)
     = (Worker.calls Worker.woken_with_both
          ++ [Worker.ResetLatch; Worker.CHECK_FOR_INTERRUPTS;
              Worker.ProcessConfigFile]
          ++ Worker.work_cycle ++ [Worker.proc_exit 1])%list.
Proof.
  split.
  - destruct (sigterm_at_wake_runs_one_more_cycle
                Worker.woken_by_sigterm (repeat Worker.Run 19)
                eq_refl eq_refl eq_refl (runs_do_not_fail 19)) as (_ & _ & H).
    destruct (H (or_intror eq_refl)) as (_ & E).
    apply E. vm_compute. lia.
  - destruct (sigterm_at_wake_runs_one_more_cycle
                Worker.woken_with_both (repeat Worker.Run 19)
                eq_refl eq_refl eq_refl (runs_do_not_fail 19)) as (_ & _ & H).
    destruct (H (or_introl eq_refl)) as (_ & E).
    apply E. vm_compute. lia.
Defined.

Lemma sigterm_during_cycle_completes_it_witness :
  Worker.calls (Worker.run (repeat Worker.Run 13)
                  (Worker.step (Worker.Sig Worker.SIGTERM) Worker.first_unit_of_work))
  = (Worker.calls Worker.first_unit_of_work
       ++ Worker.rest_of_cycle Worker.L130 ++ [Worker.proc_exit 1])%list.
Proof.
  destruct (sigterm_during_cycle_completes_it
              Worker.first_unit_of_work (repeat Worker.Run 13)
              first_unit_of_work_reachable eq_refl (runs_do_not_fail 13))
    as (_ & _ & _ & _ & H).
  destruct H as [_ E]; [vm_compute; lia | exact E].
Defined.

Lemma postmaster_death_exits_at_once_witness :
  Worker.at_pc
    (Worker.run (repeat Worker.Run 3)
       (Worker.step (Worker.Wake false true) Worker.first_wait))
  = Worker.Exited 1.
Proof.
  destruct (postmaster_death_exits_at_once
              Worker.first_wait false (repeat Worker.Run 3) eq_refl)
    as (_ & _ & _ & H).
  destruct H as [E _]; [vm_compute; lia | exact E].
Defined.

Lemma every_exit_has_status_1_witness :
  (exists before,
     Worker.calls (Worker.run (repeat Worker.Run 19) Worker.woken_by_sigterm)
     = (before ++ [Worker.proc_exit 1])%list)
  /\ (exists before,
       Worker.calls
         (Worker.run (repeat Worker.Run 3)
            (Worker.step (Worker.Wake false true) Worker.first_wait))
       = (before ++ [Worker.proc_exit 1])%list).
Proof.
  destruct (every_exit_has_status_1
              (Worker.run (repeat Worker.Run 19) Worker.woken_by_sigterm) 1
              (reachable_run _ _ woken_by_sigterm_reachable) eq_refl)
    as (_ & E1 & _).
  destruct (every_exit_has_status_1
              (Worker.run (repeat Worker.Run 3)
                 (Worker.step (Worker.Wake false true) Worker.first_wait)) 1
              (reachable_run _ _ (reachable_step _ _ first_wait_reachable))
              eq_refl)
    as (_ & E2 & _).
  split; [exact E1 | exact E2].
Defined.

(** C4, as stated, fails: when the unit of work of the first cycle fails,
    the worker has left [cachemgr_main]; it is not in the loop any more. *)
Lemma work_failure_stops_worker :
  ~ Worker.work_failure_is_survived.
Proof.
  intros H.
  pose proof (H Worker.first_unit_of_work [] first_unit_of_work_reachable
                eq_refl) as E.
  vm_compute in E. discriminate E.
Qed.

Lemma work_failure_ends_loop_witness :
  Worker.at_pc
    (Worker.run (repeat Worker.Run 5)
       (Worker.step Worker.Fail Worker.first_unit_of_work)) = Worker.Raised
  /\ Worker.at_pc (Worker.run (Worker.timeout_turns 3) Worker.first_wait)
     = Worker.L101.
Proof.
  split.
  - destruct (work_failure_ends_loop Worker.first_unit_of_work
                (repeat Worker.Run 5) 0) as (H & _).
    destruct (H eq_refl) as (E & _). exact E.
  - destruct (work_failure_ends_loop Worker.first_wait [] 3) as (_ & _ & H).
    destruct (H eq_refl eq_refl eq_refl) as (E & _). exact E.
Defined.


(** C3: the setting is described as a duration in milliseconds and starts at
    10, and the wait of the worker that runs with that default is called
    with a timeout of 10000, which [WaitLatch] takes in milliseconds. *)
Theorem default_sleep_time_waits_10000 :
  Init.guc_desc Init.sleep_time_guc = "Duration between invalidation peeks (ms)"
  /\ Init.guc_boot Init.sleep_time_guc = 10
  /\ Init.guc_min Init.sleep_time_guc = 1
  /\ (exists g evs,
        Init._PG_init 2 true [] Init.static_globals = Some (g, evs)
        /\ Init.cachemgr_sleep_time g = 10)
  /\ Worker.cachemgr_sleep_time Worker.first_wait = 10
  /\ Worker.calls (Worker.step (Worker.Wake true false) Worker.first_wait)
     = (Worker.calls Worker.first_wait ++ [Worker.WaitLatch 25 10000])%list.
Proof.
  repeat split.
  eexists; eexists; split; reflexivity.
Qed.

(** The same worker run from its start on two traces: a SIGTERM during the
    first wait, and the death of the postmaster noticed by the first wait. *)
Lemma exit_after_sigterm :
  Worker.at_pc
    (Worker.run (Worker.to_first_wait ++ [Worker.Sig Worker.SIGTERM]
                   ++ repeat Worker.Run 20)
       (Worker.start 10 [])) = Worker.Exited 1.
Proof. vm_compute. reflexivity. Qed.

Lemma exit_after_postmaster_death :
  Worker.at_pc
    (Worker.run (Worker.to_first_wait ++ [Worker.Wake false true]
                   ++ repeat Worker.Run 3)
       (Worker.start 10 [])) = Worker.Exited 1.
Proof. vm_compute. reflexivity. Qed.

(** ** More on the launch *)

Section LaunchMore.
Import Launch.

Variable Handle : Type.
Variable h : Host Handle.
Variable i : Z.

(** X1: what a result of the launch tells its caller. An int4 result is the
    pid the wait stored, for a registration that succeeded and a worker
    reported started (with assertions compiled out, also for the status
    that the wait never reports). An error is one of the two of lines
    231-251, each raised only for its own status. The SQL null is returned
    only for a registration that was refused. *)
Theorem launch_result_tells_cause :
  (forall pid, cachemgr_launch h i = PG_RETURN_INT32 pid ->
     exists handle status,
       RegisterDynamicBackgroundWorker h (launch_worker (MyProcPid h) i)
         = Some handle
       /\ WaitForBackgroundWorkerStartup h handle = (status, pid)
       /\ (status = BGWH_STARTED
           \/ (status = BGWH_NOT_YET_STARTED /\ assert_enabled h = false)))
  /\ (forall e, cachemgr_launch h i = ereport_ERROR e ->
        exists handle status pid,
          RegisterDynamicBackgroundWorker h (launch_worker (MyProcPid h) i)
            = Some handle
          /\ WaitForBackgroundWorkerStartup h handle = (status, pid)
          /\ ((status = BGWH_STOPPED /\ e = err_stopped)
              \/ (status = BGWH_POSTMASTER_DIED /\ e = err_postmaster_died)))
  /\ (cachemgr_launch h i = PG_RETURN_NULL ->
        RegisterDynamicBackgroundWorker h (launch_worker (MyProcPid h) i)
          = None)
  /\ (cachemgr_launch h i = AssertFailed ->
        assert_enabled h = true
        /\ exists handle pid,
             RegisterDynamicBackgroundWorker h (launch_worker (MyProcPid h) i)
               = Some handle
             /\ WaitForBackgroundWorkerStartup h handle
                  = (BGWH_NOT_YET_STARTED, pid)).
Proof.
  unfold cachemgr_launch.
  destruct (RegisterDynamicBackgroundWorker h (launch_worker (MyProcPid h) i))
    as [handle|] eqn:Hreg.
  - destruct (WaitForBackgroundWorkerStartup h handle) as [status p] eqn:Hwait.
    destruct status, (assert_enabled h); cbn;
      (split; [|split; [|split]]); intros; try discriminate;
      repeat match goal with
             | H : PG_RETURN_INT32 _ = PG_RETURN_INT32 _ |- _ =>
                 injection H as <-
             | H : ereport_ERROR _ = ereport_ERROR _ |- _ =>
                 injection H as <-
             end;
      try (split; [reflexivity|]);
      repeat eexists; try exact Hwait; auto.
  - repeat split; intros; discriminate.
Qed.

End LaunchMore.

Lemma launch_result_tells_cause_witness :
  exists handle status,
    Launch.WaitForBackgroundWorkerStartup
      (Launch.reporting_host Launch.BGWH_STARTED 77) handle = (status, 77)
    /\ (status = Launch.BGWH_STARTED
        \/ (status = Launch.BGWH_NOT_YET_STARTED
            /\ Launch.assert_enabled
                 (Launch.reporting_host Launch.BGWH_STARTED 77) = false)).
Proof.
  destruct (launch_result_tells_cause unit
              (Launch.reporting_host Launch.BGWH_STARTED 77) 3) as (H & _).
  destruct (H 77 eq_refl) as (handle & status & _ & Hw & Hs).
  exists handle, status. split; [exact Hw | exact Hs].
Defined.

(** ** More on module initialisation *)

Section InitMore.
Import Init.

Lemma define_in_bounds (file : ConfigFile) (g : config_int)
    (v : Z) (evs : list InitEvent) :
  guc_min g <= guc_boot g <= guc_max g ->
  DefineCustomIntVariable file g = (v, evs) ->
  guc_min g <= v <= guc_max g /\ registered evs = [].
Proof.
  intros Hb. unfold DefineCustomIntVariable.
  destruct (lookup (guc_name g) file) as [z|].
  - destruct (in_range g z) eqn:Er; intros E; inversion E; subst.
    + unfold in_range in Er. split; [lia|reflexivity].
    + split; [lia|reflexivity].
  - intros E; inversion E; subst. split; [lia|reflexivity].
Qed.

(** X2: at startup [_PG_init] always ends, whatever the configuration file
    holds and whatever the variables held before: the worker count it
    leaves is between 1 and 50, the workers it registers are exactly those
    of indices 1 to that count, and the sleep time it leaves is between 1
    and [INT_MAX]. *)
Theorem PG_init_registers_one_to_fifty
    (file : ConfigFile) (g : Globals) (fuel : nat) :
  (51 <= fuel)%nat ->
  exists g' evs,
    _PG_init fuel true file g = Some (g', evs)
    /\ 1 <= cachemgr_worker_count g' <= 50
    /\ registered evs
       = map static_worker (indices 1 (Z.to_nat (cachemgr_worker_count g')))
    /\ 1 <= cachemgr_sleep_time g' <= INT_MAX.
Proof.
  intros Hf. unfold _PG_init.
  destruct (DefineCustomIntVariable file sleep_time_guc) as [sleep ev1] eqn:E1.
  destruct (DefineCustomIntVariable file worker_count_guc) as [cnt ev2] eqn:E2.
  destruct (define_in_bounds file sleep_time_guc sleep ev1) as (Hs & R1);
    [cbn; unfold INT_MAX; lia | exact E1 |].
  destruct (define_in_bounds file worker_count_guc cnt ev2) as (Hc & R2);
    [cbn; lia | exact E2 |].
  cbn in Hs, Hc. simpl negb. cbv iota.
  rewrite (register_loop_runs (Z.to_nat cnt) fuel 1 cnt worker_template) by lia.
  eexists; eexists; split; [reflexivity|].
  cbn [cachemgr_worker_count cachemgr_sleep_time].
  split; [exact Hc|]. split; [|exact Hs].
  rewrite !registered_app, R1, R2, registered_of_registrations. reflexivity.
Qed.

Lemma In_indices (n : nat) :
  forall a x, a <= x < a + Z.of_nat n -> In x (indices a n).
Proof.
  induction n as [|n IH]; intros a x Hx; [lia|].
  cbn [indices]. destruct (Z.eq_dec a x) as [->|Hne]; [now left|].
  right. apply IH. lia.
Qed.

(** X3: the fifty static workers can be told apart. For an index from 1 to
    50 the name written by line 196 is "cachemgr_" followed by the index in
    decimal, whole (the 64 characters of the field are never reached), the
    argument of the worker is its index, and two indices that give the same
    name are the same. *)
Theorem static_workers_are_told_apart (i j : Z) :
  1 <= i <= 50 -> 1 <= j <= 50 ->
  bgw_name (static_worker i) = String.append "cachemgr_" (format_d i)
  /\ bgw_main_arg (static_worker i) = i
  /\ (bgw_name (static_worker i) = bgw_name (static_worker j) -> i = j).
Proof.
  intros Hi Hj.
  assert (Hall :
    forallb (fun a =>
      String.eqb (bgw_name (static_worker a))
                 (String.append "cachemgr_" (format_d a))
      && (bgw_main_arg (static_worker a) =? a)
      && forallb (fun b =>
           implb (String.eqb (bgw_name (static_worker a))
                             (bgw_name (static_worker b)))
                 (a =? b))
           (indices 1 50))
      (indices 1 50) = true) by (vm_compute; reflexivity).
  rewrite forallb_forall in Hall.
  specialize (Hall i (In_indices 50 1 i ltac:(lia))).
  apply andb_prop in Hall. destruct Hall as (Hall & Hinj).
  apply andb_prop in Hall. destruct Hall as (Hname & Harg).
  apply String.eqb_eq in Hname. apply Z.eqb_eq in Harg.
  split; [exact Hname|]. split; [exact Harg|].
  intros E. rewrite forallb_forall in Hinj.
  specialize (Hinj j (In_indices 50 1 j ltac:(lia))).
  rewrite E, String.eqb_refl in Hinj. cbn in Hinj. now apply Z.eqb_eq.
Qed.

Lemma register_loop_out_of_fuel (fuel : nat) :
  forall (i count : Z) (w : BackgroundWorker),
    1 <= i -> i + Z.of_nat fuel <= to_unsigned count + 1 ->
    register_loop fuel i count w = None.
Proof.
  induction fuel as [|fuel IH]; intros i count w Hi Hb; [reflexivity|].
  cbn [register_loop].
  assert (Hu : 0 <= to_unsigned count < 2 ^ 32)
    by (unfold to_unsigned; apply Z.mod_pos_bound; reflexivity).
  change (2 ^ 32) with 4294967296 in *.
  destruct (Z.leb_spec i (to_unsigned count)); [|lia].
  destruct fuel as [|fuel']; [reflexivity|].
  rewrite (Z.mod_small (i + 1)) by lia.
  rewrite IH by lia. reflexivity.
Qed.

(** X4: the bound of the loop of line 194 is compared as an [unsigned int].
    A count of 0 registers nothing. A negative count does not: read as
    unsigned it is at least 2^31, and the loop is still running after 2^31
    iterations. Only the bounds of the setting keep that from happening. *)
Theorem loop_bound_is_unsigned
    (fuel : nat) (count : Z) (w : BackgroundWorker) :
  (count = 0 -> (1 <= fuel)%nat -> register_loop fuel 1 count w = Some [])
  /\ (- 2 ^ 31 <= count < 0 -> Z.of_nat fuel <= 2 ^ 31 ->
      register_loop fuel 1 count w = None).
Proof.
  split.
  - intros -> Hf. destruct fuel as [|fuel]; [lia|]. reflexivity.
  - intros Hc Hf. apply register_loop_out_of_fuel; [lia|].
    unfold to_unsigned.
    rewrite <- (Z_mod_plus_full count 1 (2 ^ 32)).
    change (2 ^ 31) with 2147483648 in *.
    change (2 ^ 32) with 4294967296 in *.
    rewrite Z.mod_small; lia.
Qed.

End InitMore.

Lemma PG_init_registers_one_to_fifty_witness :
  exists g' evs,
    Init._PG_init 51 true [("cachemgr.worker_count", 700)] Init.static_globals
      = Some (g', evs)
    /\ 1 <= Init.cachemgr_worker_count g' <= 50.
Proof.
  destruct (PG_init_registers_one_to_fifty
              [("cachemgr.worker_count", 700)] Init.static_globals 51
              ltac:(lia)) as (g' & evs & E & Hc & _).
  exists g', evs. split; [exact E | exact Hc].
Defined.

Lemma static_workers_are_told_apart_witness :
  bgw_name (Init.static_worker 7) = String.append "cachemgr_" (format_d 7)
  /\ bgw_main_arg (Init.static_worker 7) = 7.
Proof.
  destruct (static_workers_are_told_apart 7 8 ltac:(lia) ltac:(lia))
    as (Hn & Ha & _).
  split; [exact Hn | exact Ha].
Defined.

Lemma loop_bound_is_unsigned_witness :
  Init.register_loop 100 1 (-1) Init.worker_template = None
  /\ Init.register_loop 100 1 0 Init.worker_template = Some [].
Proof.
  split.
  - destruct (loop_bound_is_unsigned 100 (-1) Init.worker_template) as (_ & H).
    apply H; [change (2 ^ 31) with 2147483648; lia
             | change (2 ^ 31) with 2147483648; lia].
  - destruct (loop_bound_is_unsigned 100 0 Init.worker_template) as (H & _).
    apply H; [reflexivity | lia].
Defined.

(** ** More of the worker on concrete runs *)

Lemma first_wait_with_reachable (sleep_time : Z) :
  1 <= sleep_time <= Init.INT_MAX ->
  Worker.reachable (Worker.first_wait_with sleep_time).
Proof.
  intros H. exists sleep_time, [], Worker.to_first_wait.
  split; [exact H | reflexivity].
Defined.

Lemma wait_timeout_fits_long_witness :
  Worker.calls
    (Worker.step (Worker.Wake true false) (Worker.first_wait_with 2147484))
  = (Worker.calls (Worker.first_wait_with 2147484)
       ++ [Worker.WaitLatch 25 2147484000])%list
  /\ Worker.wrap_long 32 (2147484 * 1000) <> 2147484 * 1000
  /\ Worker.wrap_long 32 (2147484 * 1000) = -2147483296.
Proof.
  destruct (wait_timeout_fits_long (Worker.first_wait_with 2147484)
              (Worker.Wake true false)
              (first_wait_with_reachable 2147484
                 ltac:(unfold Init.INT_MAX; lia))
              eq_refl eq_refl) as (Hc & _ & _ & H32).
  split; [exact Hc|]. split; [|reflexivity].
  intros E. apply H32 in E. vm_compute in E. apply E. reflexivity.
Defined.

Lemma startup_comes_first_witness :
  exists rest,
    Worker.calls Worker.first_wait = (Worker.startup_calls ++ rest)%list.
Proof.
  destruct (startup_comes_first Worker.first_wait first_wait_reachable)
    as (_ & H).
  apply H; [reflexivity | discriminate].
Defined.

Lemma sigterm_before_loop_never_waits_witness :
  Worker.at_pc
    (Worker.run (repeat Worker.Run 2)
       (Worker.run (Worker.Sig Worker.SIGTERM :: repeat Worker.Run 14)
          (Worker.start 10 [])))
  = Worker.Exited 1.
Proof.
  destruct (sigterm_before_loop_never_waits
              (Worker.run (Worker.Sig Worker.SIGTERM :: repeat Worker.Run 14)
                 (Worker.start 10 []))
              (repeat Worker.Run 2) eq_refl eq_refl) as (_ & H).
  destruct H as [E _]; [vm_compute; lia | exact E].
Defined.

Lemma sleep_time_waits_for_reload_witness :
  Worker.cachemgr_sleep_time
    (Worker.run [Worker.EditConfig [("cachemgr.sleep_time", 500)];
                 Worker.Wake true false; Worker.Run; Worker.Run]
       Worker.first_wait)
  = Worker.cachemgr_sleep_time Worker.first_wait.
Proof.
  destruct (sleep_time_waits_for_reload Worker.first_wait
              [Worker.EditConfig [("cachemgr.sleep_time", 500)];
               Worker.Wake true false; Worker.Run; Worker.Run]
              [Worker.WaitLatch 25 10000; Worker.ResetLatch]) as (E & _).
  - vm_compute. reflexivity.
  - cbn. intros [H|[H|[]]]; discriminate H.
  - exact E.
Defined.

Lemma wake_runs_one_cycle_witness :
  Worker.at_pc
    (Worker.run (repeat Worker.Run 18)
       (Worker.step Worker.Run
          (Worker.step (Worker.Sig Worker.SIGHUP) Worker.first_wait)))
  = Worker.L101.
Proof.
  destruct (wake_runs_one_cycle
              (Worker.step (Worker.Sig Worker.SIGHUP) Worker.first_wait)
              Worker.Run eq_refl eq_refl eq_refl eq_refl) as (E & _).
  exact E.
Defined.

Lemma nothing_held_while_waiting_witness :
  Worker.count Worker.is_start (Worker.calls Worker.first_wait)
  = Worker.count Worker.is_commit (Worker.calls Worker.first_wait).
Proof.
  destruct (nothing_held_while_waiting Worker.first_wait first_wait_reachable)
    as (_ & _ & _ & H & _).
  destruct (H (or_introl eq_refl)) as (E & _). exact E.
Defined.

Lemma one_wait_per_cycle_witness :
  Worker.count Worker.is_wait
    (Worker.calls (Worker.run (Worker.timeout_turns 3) Worker.first_wait))
  = Worker.count Worker.is_report_stat
      (Worker.calls (Worker.run (Worker.timeout_turns 3) Worker.first_wait)).
Proof.
  destruct (one_wait_per_cycle
              (Worker.run (Worker.timeout_turns 3) Worker.first_wait)
              (reachable_run _ _ first_wait_reachable)) as (_ & H).
  apply H. reflexivity.
Defined.
